(** * RAG chat application: the /query pipeline of [app.py]

    A shallow embedding of the request handler [query_documents] and of its
    two stages [search_documents] (the Retriever) and [generate_answer]
    (the Answerer), followed by the properties of the pipeline.

    Python values that come from JSON payloads are dynamically typed, so
    they are modelled by one inductive type [json]; every dynamic operation
    the source applies to them ([in], [x[k]], [x.get], iteration, [join])
    is a function into [exn + _] that raises where CPython raises.
    The two outbound [client.post] calls are answered by an oracle
    ([world]); every call and every [logger.error] is recorded in a trace. *)

From Stdlib Require Import ZArith List String Ascii Bool Lia.
From Stdlib Require Import DecimalString.
Import ListNotations.
Local Open Scope string_scope.
Local Open Scope Z_scope.
Set Warnings "-register-all".

(** ** JSON values and Python dictionaries *)

(** A Python [dict] keeps insertion order, so a dictionary is an ordered
    list of bindings; [json.loads] and dict literals never repeat a key. *)
Inductive json : Type :=
| JNull
| JBool (b : bool)
| JInt (n : Z)
| JFloat (d : Decimal.decimal)
| JStr (s : string)
| JArr (items : list json)
| JObj (fields : list (string * json)).

Definition dict := list (string * json).

Fixpoint dict_lookup (k : string) (d : dict) : option json :=
  match d with
  | [] => None
  | (k', v) :: d' => if String.eqb k k' then Some v else dict_lookup k d'
  end.

Definition dict_mem (k : string) (d : dict) : bool :=
  match dict_lookup k d with Some _ => true | None => false end.

(** [d[k] = v]: overwrite in place, or append a new binding. *)
Fixpoint dict_set (k : string) (v : json) (d : dict) : dict :=
  match d with
  | [] => [(k, v)]
  | (k', v') :: d' =>
      if String.eqb k k' then (k', v) :: d' else (k', v') :: dict_set k v d'
  end.

Definition dict_keys (d : dict) : list string := map fst d.

(** [d.get(k, default)] on a dictionary. *)
Definition dict_get (k : string) (default : json) (d : dict) : json :=
  match dict_lookup k d with Some v => v | None => default end.

(** ** Exceptions *)

(** Every exception the pipeline can see is a subclass of [Exception]. *)
Inductive exn : Type :=
| HTTPException (status_code : Z) (detail : string)
| TransportError (msg : string)
| JSONDecodeError (msg : string)
| TypeError (msg : string)
| AttributeError (msg : string)
| KeyError (key_repr : string)
| IndexError (msg : string)
| ValidationError (msg : string).

Definition string_of_Z (n : Z) : string := NilZero.string_of_int (Z.to_int n).

Definition squote : string := String "039"%char EmptyString.
Definition nl : string := String "010"%char EmptyString.

(** [str(e)].  [HTTPException.__str__] is Starlette's
    [f"{self.status_code}: {self.detail}"]; [str] of a [KeyError] is the
    [repr] of the key. *)
Definition str_exn (e : exn) : string :=
  match e with
  | HTTPException status_code detail => string_of_Z status_code ++ ": " ++ detail
  | TransportError msg => msg
  | JSONDecodeError msg => msg
  | TypeError msg => msg
  | AttributeError msg => msg
  | KeyError key_repr => key_repr
  | IndexError msg => msg
  | ValidationError msg => msg
  end.

Definition res (A : Type) : Type := (exn + A)%type.

Definition ok {A : Type} (a : A) : res A := inr a.
Definition throw {A : Type} (e : exn) : res A := inl e.

Definition rbind {A B : Type} (r : res A) (f : A -> res B) : res B :=
  match r with
  | inl e => inl e
  | inr a => f a
  end.

Declare Scope res_scope.
Delimit Scope res_scope with res.
Notation "'let?' x ':=' r 'in' k" := (rbind r (fun x => k))
  (at level 10, x pattern, r at level 100, k at level 200)   : res_scope.
Local Open Scope res_scope.

(** ** Dynamic operations on JSON values *)

(** [type(x).__name__] *)
Definition type_name (x : json) : string :=
  match x with
  | JNull => "NoneType"
  | JBool _ => "bool"
  | JInt _ => "int"
  | JFloat _ => "float"
  | JStr _ => "str"
  | JArr _ => "list"
  | JObj _ => "dict"
  end.

Definition repr_key (k : string) : string := squote ++ k ++ squote.

Fixpoint is_substring (needle hay : string) : bool :=
  if String.prefix needle hay then true
  else match hay with
       | EmptyString => false
       | String _ hay' => is_substring needle hay'
       end.

Definition is_str (k : string) (x : json) : bool :=
  match x with JStr s => String.eqb k s | _ => false end.

Fixpoint chars (s : string) : list json :=
  match s with
  | EmptyString => []
  | String c s' => JStr (String c EmptyString) :: chars s'
  end.

(** [for x in v]: the sequence of items, or [TypeError]. *)
Definition py_iter (v : json) : res (list json) :=
  match v with
  | JArr items => ok items
  | JObj fields => ok (map JStr (dict_keys fields))
  | JStr s => ok (chars s)
  | _ => throw (TypeError (squote ++ type_name v ++ squote ++ " object is not iterable"))
  end.

(** [k in x] for a string [k]. *)
Definition py_contains (k : string) (x : json) : res bool :=
  match x with
  | JObj fields => ok (dict_mem k fields)
  | JStr s => ok (is_substring k s)
  | JArr items => ok (existsb (is_str k) items)
  | _ => throw (TypeError ("argument of type " ++ squote ++ type_name x ++ squote
                            ++ " is not iterable"))
  end.

(** [x[k]] for a string [k]. *)
Definition py_getitem (x : json) (k : string) : res json :=
  match x with
  | JObj fields =>
      match dict_lookup k fields with
      | Some v => ok v
      | None => throw (KeyError (repr_key k))
      end
  | JStr _ => throw (TypeError ("string indices must be integers, not " ++ squote ++ "str" ++ squote))
  | JArr _ => throw (TypeError "list indices must be integers or slices, not str")
  | _ => throw (TypeError (squote ++ type_name x ++ squote ++ " object is not subscriptable"))
  end.

(** [x[0]] *)
Definition py_getitem0 (x : json) : res json :=
  match x with
  | JArr [] => throw (IndexError "list index out of range")
  | JArr (v :: _) => ok v
  | JStr EmptyString => throw (IndexError "string index out of range")
  | JStr (String c _) => ok (JStr (String c EmptyString))
  | JObj _ => throw (KeyError "0")
  | _ => throw (TypeError (squote ++ type_name x ++ squote ++ " object is not subscriptable"))
  end.

(** [x.get(k, default)]: only dictionaries have the method. *)
Definition py_get (x : json) (k : string) (default : json) : res json :=
  match x with
  | JObj fields => ok (dict_get k default fields)
  | _ => throw (AttributeError (squote ++ type_name x ++ squote
                                 ++ " object has no attribute " ++ squote ++ "get" ++ squote))
  end.

(** [sep.join(items)]: every item must be a [str]. *)
Fixpoint join_from (i : nat) (sep : string) (items : list json) : res string :=
  match items with
  | [] => ok ""
  | x :: rest =>
      match x with
      | JStr s =>
          let? tail := join_from (S i) sep rest in
          ok (match rest with [] => s | _ => s ++ sep ++ tail end)
      | _ => throw (TypeError ("sequence item " ++ string_of_Z (Z.of_nat i)
                                ++ ": expected str instance, " ++ type_name x ++ " found"))
      end
  end.

Definition py_join (sep : string) (items : list json) : res string :=
  join_from 0 sep items.

(** ** Configuration, outbound requests and the outside world *)

(** The module-level settings read with [os.getenv]; a setting without a
    default may be [None]. *)
Record config : Type := {
  AZURE_SEARCH_ENDPOINT : option string;
  AZURE_SEARCH_KEY : option string;
  AZURE_SEARCH_INDEX : option string;
  AZURE_OPENAI_ENDPOINT : option string;
  AZURE_OPENAI_KEY : option string;
  AZURE_OPENAI_DEPLOYMENT : string
}.

(** An optional string inside an f-string. *)
Definition fmt (o : option string) : string :=
  match o with Some s => s | None => "None" end.

(** The arguments of one [client.post] call; the timeout is in seconds. *)
Record request : Type := {
  req_url : string;
  req_api_key : option string;
  req_json : dict;
  req_timeout : Z
}.

(** What the handler reads of an [httpx.Response]: [response.json()] either
    yields the decoded payload or raises [JSONDecodeError]. *)
Record response : Type := {
  status_code : Z;
  text : string;
  json_payload : string + json
}.

(** [await client.post(...)] either raises (timeout, connection failure)
    or delivers a response. *)
Inductive outcome : Type :=
| Raises (e : exn)
| Responds (r : response).

Record world : Type := {
  http_post : request -> outcome
}.

(** Which stage issued an outbound call. *)
Inductive stage : Type := Retriever | Answerer.

Inductive event : Type :=
| EvPost (s : stage) (req : request)
| EvLog (msg : string).

Definition trace := list event.

(** ** Computations with a trace and exceptions *)

Definition M (A : Type) : Type := (trace * res A)%type.

Definition ret {A : Type} (a : A) : M A := ([], ok a).
Definition raise {A : Type} (e : exn) : M A := ([], throw e).
Definition lift {A : Type} (r : res A) : M A := ([], r).
Definition emit (ev : event) : M unit := ([ev], ok tt).

Definition bind {A B : Type} (m : M A) (f : A -> M B) : M B :=
  match m with
  | (t1, inl e) => (t1, inl e)
  | (t1, inr a) => let (t2, r) := f a in ((t1 ++ t2)%list, r)
  end.

(** [try: m  except Exception as e: h e] *)
Definition try_except {A : Type} (m : M A) (h : exn -> M A) : M A :=
  match m with
  | (t1, inl e) => let (t2, r) := h e in ((t1 ++ t2)%list, r)
  | (t1, inr a) => (t1, inr a)
  end.

Declare Scope M_scope.
Delimit Scope M_scope with M.
Notation "x <- m ;; k" := (bind m (fun x => k))
  (at level 100, m at next level, right associativity) : M_scope.
Notation "m ;; k" := (bind m (fun _ => k))
  (at level 100, right associativity) : M_scope.

Definition logger_error (msg : string) : M unit := emit (EvLog msg).

(** [await client.post(url, headers=..., json=..., timeout=...)] *)
Definition client_post (w : world) (s : stage) (req : request) : M response :=
  bind (emit (EvPost s req))
       (fun _ => match http_post w req with
                 | Raises e => raise e
                 | Responds r => ret r
                 end).

(** [response.json()] *)
Definition response_json (r : response) : res json :=
  match json_payload r with
  | inl msg => throw (JSONDecodeError msg)
  | inr v => ok v
  end.

(** ** The Retriever: [search_documents] *)

(** A Python truth test on an [Optional[str]]. *)
Definition truthy (o : option string) : bool :=
  match o with
  | Some EmptyString => false
  | Some _ => true
  | None => false
  end.

(** An [Optional[str]] as a JSON value. *)
Definition json_of_opt (o : option string) : json :=
  match o with Some s => JStr s | None => JNull end.

Definition search_body (query : string) (top_k : Z) (filter_param : option string) : dict :=
  let body :=
    [ ("search", JStr query);
      ("queryType", JStr "semantic");
      ("vectorQueries",
        JArr [ JObj [ ("kind", JStr "text");
                      ("text", JStr query);
                      ("fields", JStr "text_vector");
                      ("k", JInt top_k) ] ]);
      ("top", JInt top_k) ] in
  if truthy filter_param
  then dict_set "filter" (json_of_opt filter_param) body
  else body.

Definition search_url (cfg : config) : string :=
  fmt (AZURE_SEARCH_ENDPOINT cfg) ++ "/indexes/" ++ fmt (AZURE_SEARCH_INDEX cfg)
  ++ "/docs/search?api-version=2023-10-01-preview".

Definition search_request (cfg : config) (query : string) (top_k : Z)
    (filter_param : option string) : request :=
  {| req_url := search_url cfg;
     req_api_key := AZURE_SEARCH_KEY cfg;
     req_json := search_body query top_k filter_param;
     req_timeout := 30 |}.

Section Pipeline.

Variable cfg : config.
Variable w : world.

Local Open Scope M_scope.

Definition search_documents (query : string) (top_k : Z) (filter_param : option string)
  : M json :=
  try_except
    (response <- client_post w Retriever (search_request cfg query top_k filter_param) ;;
     if negb (status_code response =? 200) then
       logger_error ("Search API error: " ++ string_of_Z (status_code response)
                     ++ " " ++ text response) ;;
       raise (HTTPException (status_code response) (text response))
     else
       results <- lift (response_json response) ;;
       lift (py_get results "value" (JArr [])))
    (fun e =>
       logger_error ("Error searching documents: " ++ str_exn e) ;;
       raise e).

(** ** The Answerer: [generate_answer] *)

(** The body of [for result in search_results], on the pair
    [(context_chunks, sources)] of the two lists it appends to. *)
Definition loop_body (acc : list json * list dict) (result : json)
  : res (list json * list dict) :=
  let (context_chunks, sources) := acc in
  let? has_chunk := py_contains "chunk" result in
  let? context_chunks :=
    (if has_chunk : bool
     then let? chunk := py_getitem result "chunk" in ok (context_chunks ++ [chunk])%list
     else ok context_chunks) in
  let? title := py_get result "title" (JStr "Unknown Document") in
  let? url := py_get result "url" (JStr "") in
  let? chunk_id := py_get result "id" (JStr "") in
  let? score := py_get result "@search.score" (JInt 0) in
  let source := [ ("title", title); ("url", url); ("chunk_id", chunk_id); ("score", score) ] in
  ok (context_chunks, (sources ++ [source])%list).

Fixpoint for_each {S A : Type} (body : S -> A -> res S) (items : list A) (st : S) : res S :=
  match items with
  | [] => ok st
  | x :: rest => let? st' := body st x in for_each body rest st'
  end.

(** Lines 129-146: the loop and the join. *)
Definition build_context (search_results : json) : res (string * list dict) :=
  let? items := py_iter search_results in
  let? acc := for_each loop_body items ([], []) in
  let? context := py_join (nl ++ nl) (fst acc) in
  ok (context, snd acc).

Definition dquote : string := String "034"%char EmptyString.
Definition indent : string := "                ".

Definition system_content : string :=
  "You are a helpful assistant that provides information based on the context provided. " ++ nl
  ++ indent ++ "Follow these guidelines:" ++ nl
  ++ indent ++ "1. Answer ONLY based on provided context" ++ nl
  ++ indent ++ "2. If unsure, say " ++ dquote ++ "I don't have that information" ++ dquote ++ nl
  ++ indent ++ "3. Cite the source document name when possible" ++ nl
  ++ indent ++ "4. Be concise but complete" ++ nl
  ++ indent ++ "5. Use bullet points for lists" ++ nl
  ++ indent ++ "6. Do not hallucinate or make up information" ++ nl
  ++ indent.

Definition user_content (context query : string) : string :=
  "Context:" ++ nl
  ++ indent ++ context ++ nl
  ++ indent ++ nl
  ++ indent ++ "Question: " ++ query ++ nl
  ++ indent ++ nl
  ++ indent ++ "Instructions:" ++ nl
  ++ indent ++ "- Provide a direct answer" ++ nl
  ++ indent ++ "- Cite the relevant document when possible" ++ nl
  ++ indent ++ "- If multiple documents apply, summarize each" ++ nl
  ++ indent.

Definition messages (context query : string) : json :=
  JArr [ JObj [ ("role", JStr "system"); ("content", JStr system_content) ];
         JObj [ ("role", JStr "user"); ("content", JStr (user_content context query)) ] ].

(** The literal [0.7]. *)
Definition temperature : Decimal.decimal :=
  Decimal.Decimal (Decimal.Pos (Decimal.D0 Decimal.Nil)) (Decimal.D7 Decimal.Nil).

Definition openai_body (context query : string) : dict :=
  [ ("messages", messages context query);
    ("model", JStr (AZURE_OPENAI_DEPLOYMENT cfg));
    ("temperature", JFloat temperature);
    ("max_tokens", JInt 800) ].

Definition openai_url : string :=
  fmt (AZURE_OPENAI_ENDPOINT cfg) ++ "/openai/deployments/" ++ AZURE_OPENAI_DEPLOYMENT cfg
  ++ "/chat/completions?api-version=2023-05-15".

Definition openai_request (context query : string) : request :=
  {| req_url := openai_url;
     req_api_key := AZURE_OPENAI_KEY cfg;
     req_json := openai_body context query;
     req_timeout := 60 |}.

(** [result["choices"][0]["message"]["content"]] *)
Definition extract_answer (result : json) : res json :=
  let? choices := py_getitem result "choices" in
  let? first := py_getitem0 choices in
  let? message := py_getitem first "message" in
  py_getitem message "content".

Definition generate_answer (query : string) (search_results : json)
  : M (json * list dict) :=
  try_except
    (built <- lift (build_context search_results) ;;
     response <- client_post w Answerer (openai_request (fst built) query) ;;
     if negb (status_code response =? 200) then
       logger_error ("OpenAI API error: " ++ string_of_Z (status_code response)
                     ++ " " ++ text response) ;;
       raise (HTTPException (status_code response) (text response))
     else
       result <- lift (response_json response) ;;
       answer <- lift (extract_answer result) ;;
       ret (answer, snd built))
    (fun e =>
       logger_error ("Error generating answer: " ++ str_exn e) ;;
       raise e).

(** ** The request handler: [query_documents] *)

Record QueryRequest : Type := {
  query : string;
  top_k : Z;
  filter : option string
}.

Record ChatResponse : Type := {
  answer : string;
  sources : list dict
}.

(** What the handler relies on from pydantic's field validation.  Which
    non-string values a [str] field still accepts (and which non-integers an
    [int] field) differs between pydantic releases; a string is always
    accepted by a [str] field and an integer by an [int] field, unchanged.
    A rejected value comes with the text of the [ValidationError].

    The route is declared with [response_model=ChatResponse]: once the
    handler has returned, the model is encoded as the JSON body of the
    answer, outside the handler's [try].  Whether a model can be encoded (a
    text that is not valid Unicode or a score that is not a finite number
    cannot) is not visible in the texts and numbers of this embedding, so
    [encodable] tells it. *)
Record pydantic : Type := {
  validate_str : json -> string + string;
  validate_int : json -> string + Z;
  validate_str_JStr : forall s, validate_str (JStr s) = inr s;
  validate_int_JInt : forall n, validate_int (JInt n) = inr n;
  encodable : ChatResponse -> bool
}.

Variable P : pydantic.

(** [ChatResponse(answer=answer, sources=sources)]: [sources] is a list
    of dictionaries with string keys by construction. *)
Definition new_ChatResponse (answer : json) (sources : list dict) : res ChatResponse :=
  match validate_str P answer with
  | inl msg => throw (ValidationError msg)
  | inr a => ok {| answer := a; sources := sources |}
  end.

Definition query_documents (request : QueryRequest) : M ChatResponse :=
  try_except
    (search_results <- search_documents (query request) (top_k request) (filter request) ;;
     pair <- generate_answer (query request) search_results ;;
     lift (new_ChatResponse (fst pair) (snd pair)))
    (fun e =>
       logger_error ("Error processing query: " ++ str_exn e) ;;
       raise (HTTPException 500 ("Error processing query: " ++ str_exn e))).

(** ** The route [POST /query] *)

(** The request body parsed into the [QueryRequest] model: [query] is
    required, [top_k] defaults to 3, [filter] defaults to [None]. *)
Definition parse_QueryRequest (body : json) : option QueryRequest :=
  match body with
  | JObj fields =>
      match dict_lookup "query" fields with
      | None => None
      | Some q =>
          match validate_str P q,
                match dict_lookup "top_k" fields with
                | None => inr 3
                | Some k => validate_int P k
                end,
                match dict_lookup "filter" fields with
                | None => inr None
                | Some JNull => inr None
                | Some f => match validate_str P f with
                            | inl msg => inl msg
                            | inr s => inr (Some s)
                            end
                end
          with
          | inr query, inr top_k, inr filter =>
              Some {| query := query; top_k := top_k; filter := filter |}
          | _, _, _ => None
          end
      end
  | _ => None
  end.

(** What the client receives: the model as a 200, the [HTTPException]
    raised by the handler with its status and its detail, the framework's
    422 when the body does not parse (the handler is then not called), or
    the server's plain 500 "Internal Server Error", without detail, when the
    returned model cannot be encoded or another exception leaves the
    handler. *)
Inductive reply : Type :=
| ReplyChat (c : ChatResponse)
| ReplyError (status : Z) (detail : string)
| ReplyInvalid
| ReplyServerError.

Definition reply_of (r : res ChatResponse) : reply :=
  match r with
  | inr c => if encodable P c then ReplyChat c else ReplyServerError
  | inl (HTTPException status detail) => ReplyError status detail
  | inl _ => ReplyServerError
  end.

Definition post_query (body : json) : trace * reply :=
  match parse_QueryRequest body with
  | None => ([], ReplyInvalid)
  | Some request =>
      let (t, r) := query_documents request in (t, reply_of r)
  end.

End Pipeline.

(** ** Observations on traces *)

Definition stage_eqb (a b : stage) : bool :=
  match a, b with
  | Retriever, Retriever | Answerer, Answerer => true
  | _, _ => false
  end.

(** The requests a stage posted, in order. *)
Fixpoint posts (s : stage) (t : trace) : list request :=
  match t with
  | [] => []
  | EvPost s' req :: t' => if stage_eqb s s' then req :: posts s t' else posts s t'
  | EvLog _ :: t' => posts s t'
  end.

(** The stages that posted, in order. *)
Fixpoint stages (t : trace) : list stage :=
  match t with
  | [] => []
  | EvPost s _ :: t' => s :: stages t'
  | EvLog _ :: t' => stages t'
  end.

(** ** The specification's reading of the data *)

(** The Source of the specification: [title], [url], [chunk_id] and [score]
    are the record's [title], [url], [id] and relevance score, defaulting to
    the placeholder, the empty text, the empty text and zero. *)
Definition field_or (default : json) (o : option json) : json :=
  match o with Some v => v | None => default end.

Definition source_of (fields : dict) : dict :=
  [ ("title", field_or (JStr "Unknown Document") (dict_lookup "title" fields));
    ("url", field_or (JStr "") (dict_lookup "url" fields));
    ("chunk_id", field_or (JStr "") (dict_lookup "id" fields));
    ("score", field_or (JInt 0) (dict_lookup "@search.score" fields)) ].

(** The values under [chunk] of the records that have the field. *)
Definition chunk_values (records : list dict) : list json :=
  flat_map (fun fields => match dict_lookup "chunk" fields with
                          | Some v => [v]
                          | None => []
                          end) records.

(** The chunk texts of the records whose [chunk] is a text. *)
Definition chunk_texts (records : list dict) : list string :=
  flat_map (fun fields => match dict_lookup "chunk" fields with
                          | Some (JStr s) => [s]
                          | _ => []
                          end) records.

(** The data model's typing of a record: a [chunk], when present, is text. *)
Definition chunk_is_text (fields : dict) : bool :=
  match dict_lookup "chunk" fields with
  | Some (JStr _) | None => true
  | Some _ => false
  end.

(** A source derived from one retrieved item, which is then a record. *)
Definition derived (item : json) (source : dict) : Prop :=
  exists fields, item = JObj fields /\ source = source_of fields.

(** A 200 generation payload of the shape
    [{choices: [{message: {content}}, ...]}]: the first choice is an
    object whose [message] is an object with a [content]. *)
Definition first_content (payload : json) (content : json) : Prop :=
  exists fields choice rest message,
    payload = JObj fields
    /\ dict_lookup "choices" fields = Some (JArr (JObj choice :: rest))
    /\ dict_lookup "message" choice = Some (JObj message)
    /\ dict_lookup "content" message = Some content.

(** ** Concrete settings, validators and services *)

Definition cfg0 : config :=
  {| AZURE_SEARCH_ENDPOINT := Some "https://search.example";
     AZURE_SEARCH_KEY := Some "sk";
     AZURE_SEARCH_INDEX := Some "docs";
     AZURE_OPENAI_ENDPOINT := Some "https://openai.example";
     AZURE_OPENAI_KEY := Some "ok";
     AZURE_OPENAI_DEPLOYMENT := "gpt-4o" |}.

(** A validator that accepts exactly strings and integers. *)
Definition strict_str (v : json) : string + string :=
  match v with
  | JStr s => inr s
  | _ => inl "Input should be a valid string"
  end.

Definition strict_int (v : json) : string + Z :=
  match v with
  | JInt n => inr n
  | _ => inl "Input should be a valid integer"
  end.

Definition strict : pydantic :=
  {| validate_str := strict_str;
     validate_int := strict_int;
     validate_str_JStr := fun s => eq_refl;
     validate_int_JInt := fun n => eq_refl;
     encodable := fun _ => true |}.

(** The same validator, for answers that cannot be encoded. *)
Definition strict_unencodable : pydantic :=
  {| validate_str := strict_str;
     validate_int := strict_int;
     validate_str_JStr := fun s => eq_refl;
     validate_int_JInt := fun n => eq_refl;
     encodable := fun _ => false |}.

(** A 200 answer whose body decodes to [payload]; the code reads the raw
    text of an answer only when the status is not 200. *)
Definition answers (payload : json) : response :=
  {| status_code := 200; text := ""; json_payload := inr payload |}.

(** An answer with an error status and a body that is not JSON. *)
Definition fails (status : Z) (body : string) : response :=
  {| status_code := status;
     text := body;
     json_payload := inl "Expecting value: line 1 column 1 (char 0)" |}.

(** A request is a generation request when its body has [messages]. *)
Definition is_chat (req : request) : bool := dict_mem "messages" (req_json req).

(** Services that answer every search with [found] and every generation
    request with [generated]. *)
Definition serve (found generated : response) : world :=
  {| http_post := fun req => Responds (if is_chat req then generated else found) |}.

Definition completion (content : json) : json :=
  JObj [ ("choices", JArr [ JObj [ ("message", JObj [ ("role", JStr "assistant");
                                                      ("content", content) ]) ] ]) ].

Definition hits (records : list dict) : json :=
  JObj [ ("value", JArr (map JObj records)) ].

Definition half : Decimal.decimal :=
  Decimal.Decimal (Decimal.Pos (Decimal.D0 Decimal.Nil)) (Decimal.D5 Decimal.Nil).

(** A complete record, and one with neither [chunk] nor [title], [id] or
    score. *)
Definition rec_refunds : dict :=
  [ ("id", JStr "policy-0");
    ("title", JStr "Refund policy");
    ("url", JStr "https://docs.example/refunds");
    ("chunk", JStr "Refunds are issued within 30 days.");
    ("@search.score", JFloat half) ].

Definition rec_returns : dict :=
  [ ("id", JStr "policy-1");
    ("title", JStr "Returns");
    ("chunk", JStr "Contact support to start a return.") ].

Definition rec_bare : dict := [ ("url", JStr "https://docs.example/faq") ].

Definition good_answer : response := answers (completion (JStr "Refunds take 30 days.")).

Definition w_two : world := serve (answers (hits [rec_refunds; rec_bare])) good_answer.
Definition w_three : world :=
  serve (answers (hits [rec_refunds; rec_bare; rec_returns])) good_answer.
Definition w_none : world := serve (answers (hits [])) good_answer.
Definition w_no_value : world :=
  serve (answers (JObj [ ("@odata.context", JStr "https://search.example/$metadata") ]))
        good_answer.
Definition w_search_down : world := serve (fails 503 "Service Unavailable") good_answer.
Definition w_openai_down : world :=
  serve (answers (hits [rec_refunds])) (fails 429 "Too Many Requests").
Definition w_no_choices : world :=
  serve (answers (hits [rec_refunds])) (answers (JObj [ ("choices", JArr []) ])).

Definition ask (q : string) (k : Z) : QueryRequest :=
  {| query := q; top_k := k; filter := None |}.

(** Services on which every call times out, and services whose generation
    call times out after a successful search. *)
Definition w_timeout : world :=
  {| http_post := fun _ => Raises (TransportError "timed out") |}.

Definition w_openai_timeout : world :=
  {| http_post := fun req =>
       if is_chat req then Raises (TransportError "timed out")
       else Responds (answers (hits [rec_refunds])) |}.

(** A 200 answer whose body is not JSON. *)
Definition not_json : response :=
  {| status_code := 200;
     text := "<html>";
     json_payload := inl "Expecting value: line 1 column 1 (char 0)" |}.

Definition w_search_not_json : world := serve not_json good_answer.
Definition w_openai_not_json : world := serve (answers (hits [rec_refunds])) not_json.
Definition w_list_payload : world := serve (answers (JArr [JObj rec_refunds])) good_answer.
Definition w_null_value : world := serve (answers (JObj [ ("value", JNull) ])) good_answer.
(** A record whose [chunk] is [null]. *)
Definition rec_null_chunk : dict := [ ("id", JStr "policy-2"); ("chunk", JNull) ].

Definition w_null_chunk : world := serve (answers (hits [rec_null_chunk])) good_answer.
Definition w_null_content : world :=
  serve (answers (hits [rec_refunds])) (answers (completion JNull)).

(** ** The loop of [generate_answer] *)

Lemma loop_body_record (chunks : list json) (srcs : list dict) (fields : dict) :
  loop_body (chunks, srcs) (JObj fields)
  = inr ((chunks ++ chunk_values [fields])%list, (srcs ++ [source_of fields])%list).
Proof.
  unfold loop_body, py_contains, py_getitem, py_get, dict_mem, dict_get,
    chunk_values, source_of, field_or.
  cbn [flat_map rbind ok].
  destruct (dict_lookup "chunk" fields) as [v|]; cbn [rbind ok app].
  - reflexivity.
  - rewrite app_nil_r. reflexivity.
Qed.

Lemma chunk_values_cons (fields : dict) (records : list dict) :
  chunk_values (fields :: records)
  = (chunk_values [fields] ++ chunk_values records)%list.
Proof.
  unfold chunk_values. cbn [flat_map]. rewrite app_nil_r. reflexivity.
Qed.

Lemma for_each_records (records : list dict) :
  forall chunks srcs,
    for_each loop_body (map JObj records) (chunks, srcs)
    = inr ((chunks ++ chunk_values records)%list, (srcs ++ map source_of records)%list).
Proof.
  induction records as [|fields records IH]; intros chunks srcs.
  - cbn. rewrite !app_nil_r. reflexivity.
  - cbn [map for_each]. rewrite loop_body_record. cbn [rbind].
    rewrite IH, (chunk_values_cons fields records), <- !app_assoc. reflexivity.
Qed.

(** An iteration of the loop that does not raise was run on a record. *)
Lemma loop_body_inv (chunks chunks' : list json) (srcs srcs' : list dict) (item : json) :
  loop_body (chunks, srcs) item = inr (chunks', srcs') ->
  exists fields, item = JObj fields /\ srcs' = (srcs ++ [source_of fields])%list.
Proof.
  destruct item as [ | b | n | d | s | items | fields ]; try (cbn; discriminate).
  - unfold loop_body. cbn [py_contains rbind ok].
    destruct (is_substring "chunk" s); cbn; discriminate.
  - unfold loop_body. cbn [py_contains rbind ok].
    destruct (existsb (is_str "chunk") items); cbn; discriminate.
  - rewrite loop_body_record. intros E. injection E as _ E2.
    exists fields. split; [reflexivity | now symmetry].
Qed.

Lemma for_each_inv (items : list json) :
  forall chunks srcs chunks' srcs',
    for_each loop_body items (chunks, srcs) = inr (chunks', srcs') ->
    exists new, srcs' = (srcs ++ new)%list /\ Forall2 derived items new.
Proof.
  induction items as [|item items IH]; intros chunks srcs chunks' srcs' E.
  - cbn in E. injection E as _ E2. exists []. rewrite app_nil_r. split; [now symmetry | constructor].
  - cbn [for_each] in E.
    destruct (loop_body (chunks, srcs) item) as [e | [chunks1 srcs1]] eqn:Estep;
      cbn [rbind] in E; [discriminate|].
    apply loop_body_inv in Estep. destruct Estep as (fields & -> & ->).
    apply IH in E. destruct E as (new & -> & Hall).
    exists (source_of fields :: new). split.
    + rewrite <- app_assoc. reflexivity.
    + constructor; [exists fields; split; reflexivity | exact Hall].
Qed.

(** ** Joining texts *)

Lemma join_from_texts (sep : string) (texts : list string) :
  forall i, join_from i sep (map JStr texts) = inr (String.concat sep texts).
Proof.
  induction texts as [|s texts IH]; intros i.
  - reflexivity.
  - cbn [map join_from]. rewrite IH. cbn [rbind ok].
    destruct texts; reflexivity.
Qed.

Lemma chunk_values_texts (records : list dict) :
  forallb chunk_is_text records = true ->
  chunk_values records = map JStr (chunk_texts records).
Proof.
  induction records as [|fields records IH]; intros H.
  - reflexivity.
  - cbn [forallb] in H. apply andb_true_iff in H. destruct H as [Hf Hr].
    unfold chunk_values, chunk_texts in *. cbn [flat_map].
    rewrite map_app, IH by exact Hr. f_equal.
    unfold chunk_is_text in Hf.
    destruct (dict_lookup "chunk" fields) as [[ | | | | | | ]|]; try discriminate; reflexivity.
Qed.

Lemma build_context_records (records : list dict) :
  forallb chunk_is_text records = true ->
  build_context (JArr (map JObj records))
  = inr (String.concat (nl ++ nl) (chunk_texts records), map source_of records).
Proof.
  intros H. unfold build_context. cbn [py_iter rbind ok].
  rewrite for_each_records. cbn [rbind fst snd app].
  rewrite chunk_values_texts by exact H.
  unfold py_join. rewrite join_from_texts. reflexivity.
Qed.

Lemma build_context_inv (search_results : json) (context : string) (srcs : list dict) :
  build_context search_results = inr (context, srcs) ->
  exists items, py_iter search_results = inr items /\ Forall2 derived items srcs.
Proof.
  unfold build_context. intros E.
  destruct (py_iter search_results) as [e|items]; cbn [rbind] in E; [discriminate|].
  destruct (for_each loop_body items ([], [])) as [e|[chunks srcs']] eqn:Eloop;
    cbn [rbind fst snd] in E; [discriminate|].
  destruct (py_join (nl ++ nl) chunks) as [e|ctx]; cbn [rbind ok] in E; [discriminate|].
  injection E as _ <-.
  apply for_each_inv in Eloop. destruct Eloop as (new & -> & Hall).
  exists items. split; [reflexivity | exact Hall].
Qed.

(** ** The stages, case by case *)

Section Stages.

Variable cfg : config.
Variable w : world.

(** The Retriever posts once, whatever happens next. *)
Lemma search_documents_stages (q : string) (k : Z) (f : option string) :
  stages (fst (search_documents cfg w q k f)) = [Retriever]
  /\ posts Retriever (fst (search_documents cfg w q k f)) = [search_request cfg q k f]
  /\ posts Answerer (fst (search_documents cfg w q k f)) = [].
Proof.
  unfold search_documents, client_post, try_except, bind, emit, logger_error, raise, ret, lift.
  destruct (http_post w (search_request cfg q k f)) as [e|r]; cbn.
  - repeat split.
  - destruct (status_code r =? 200); cbn.
    + destruct (response_json r) as [e|results]; cbn; [repeat split|].
      destruct (py_get results "value" (JArr [])); cbn; repeat split.
    + repeat split.
Qed.

Lemma search_documents_status (q : string) (k : Z) (f : option string) (r : response) :
  http_post w (search_request cfg q k f) = Responds r ->
  status_code r <> 200 ->
  snd (search_documents cfg w q k f) = inl (HTTPException (status_code r) (text r)).
Proof.
  intros Hpost Hstatus.
  unfold search_documents, client_post, try_except, bind, emit, logger_error, raise, ret, lift.
  rewrite Hpost. apply Z.eqb_neq in Hstatus. cbn. rewrite Hstatus. reflexivity.
Qed.

Lemma search_documents_200 (q : string) (k : Z) (f : option string) (r : response) :
  http_post w (search_request cfg q k f) = Responds r ->
  status_code r = 200 ->
  snd (search_documents cfg w q k f)
  = rbind (response_json r) (fun results => py_get results "value" (JArr [])).
Proof.
  intros Hpost Hstatus.
  unfold search_documents, client_post, try_except, bind, emit, logger_error, raise, ret, lift.
  rewrite Hpost. cbn. rewrite Hstatus. cbn.
  destruct (response_json r) as [e|results]; cbn; [reflexivity|].
  destruct (py_get results "value" (JArr [])); reflexivity.
Qed.

(** The Retriever returns a value only from a 200 answer. *)
Lemma search_documents_inv (q : string) (k : Z) (f : option string) (v : json) :
  snd (search_documents cfg w q k f) = inr v ->
  exists r, http_post w (search_request cfg q k f) = Responds r /\ status_code r = 200.
Proof.
  unfold search_documents, client_post, try_except, bind, emit, logger_error, raise, ret, lift.
  destruct (http_post w (search_request cfg q k f)) as [e|r]; cbn; [discriminate|].
  destruct (status_code r =? 200) eqn:E; cbn; [|discriminate].
  intros _. exists r. split; [reflexivity | now apply Z.eqb_eq].
Qed.

(** The Answerer posts once when the context could be built, and not at
    all otherwise. *)
Lemma generate_answer_stages (q : string) (search_results : json) :
  stages (fst (generate_answer cfg w q search_results))
  = match build_context search_results with inl _ => [] | inr _ => [Answerer] end
  /\ posts Answerer (fst (generate_answer cfg w q search_results))
     = match build_context search_results with
       | inl _ => []
       | inr built => [openai_request cfg (fst built) q]
       end
  /\ posts Retriever (fst (generate_answer cfg w q search_results)) = [].
Proof.
  unfold generate_answer, client_post, try_except, bind, emit, logger_error, raise, ret, lift.
  destruct (build_context search_results) as [e|built]; cbn; [repeat split|].
  destruct (http_post w (openai_request cfg (fst built) q)) as [e|r]; cbn; [repeat split|].
  destruct (status_code r =? 200); cbn; [|repeat split].
  destruct (response_json r) as [e|result]; cbn; [repeat split|].
  destruct (extract_answer result); cbn; repeat split.
Qed.

Lemma generate_answer_status (q : string) (search_results : json) (context : string)
    (srcs : list dict) (r : response) :
  build_context search_results = inr (context, srcs) ->
  http_post w (openai_request cfg context q) = Responds r ->
  status_code r <> 200 ->
  snd (generate_answer cfg w q search_results) = inl (HTTPException (status_code r) (text r)).
Proof.
  intros Hbuild Hpost Hstatus.
  unfold generate_answer, client_post, try_except, bind, emit, logger_error, raise, ret, lift.
  rewrite Hbuild. cbn. rewrite Hpost. apply Z.eqb_neq in Hstatus. cbn. rewrite Hstatus.
  reflexivity.
Qed.

Lemma generate_answer_200 (q : string) (search_results : json) (context : string)
    (srcs : list dict) (r : response) :
  build_context search_results = inr (context, srcs) ->
  http_post w (openai_request cfg context q) = Responds r ->
  status_code r = 200 ->
  snd (generate_answer cfg w q search_results)
  = rbind (response_json r)
      (fun result => rbind (extract_answer result) (fun answer => ok (answer, srcs))).
Proof.
  intros Hbuild Hpost Hstatus.
  unfold generate_answer, client_post, try_except, bind, emit, logger_error, raise, ret, lift.
  rewrite Hbuild. cbn. rewrite Hpost. cbn. rewrite Hstatus. cbn.
  destruct (response_json r) as [e|result]; cbn; [reflexivity|].
  destruct (extract_answer result); reflexivity.
Qed.

(** The sources the Answerer returns are those of [build_context]. *)
Lemma generate_answer_inv (q : string) (search_results : json) (a : json) (srcs : list dict) :
  snd (generate_answer cfg w q search_results) = inr (a, srcs) ->
  exists context, build_context search_results = inr (context, srcs).
Proof.
  unfold generate_answer, client_post, try_except, bind, emit, logger_error, raise, ret, lift.
  destruct (build_context search_results) as [e|[context srcs']]; cbn; [discriminate|].
  destruct (http_post w (openai_request cfg context q)) as [e|r]; cbn; [discriminate|].
  destruct (status_code r =? 200); cbn; [|discriminate].
  destruct (response_json r) as [e|result]; cbn; [discriminate|].
  destruct (extract_answer result); cbn; [discriminate|].
  intros E. injection E as _ <-. exists context. reflexivity.
Qed.

Variable P : pydantic.

(** The handler composes the two stages; its result and its trace in
    terms of theirs. *)
Lemma query_documents_snd (request : QueryRequest) :
  snd (query_documents cfg w P request)
  = match rbind (snd (search_documents cfg w (query request) (top_k request) (filter request)))
            (fun search_results =>
               rbind (snd (generate_answer cfg w (query request) search_results))
                     (fun pair => new_ChatResponse P (fst pair) (snd pair))) with
    | inl e => inl (HTTPException 500 ("Error processing query: " ++ str_exn e))
    | inr c => inr c
    end.
Proof.
  unfold query_documents, try_except, bind, logger_error, emit, raise, lift.
  destruct (search_documents cfg w (query request) (top_k request) (filter request))
    as [t1 [e|search_results]]; cbn; [reflexivity|].
  destruct (generate_answer cfg w (query request) search_results) as [t2 [e|pair]]; cbn;
    [reflexivity|].
  destruct (new_ChatResponse P (fst pair) (snd pair)); reflexivity.
Qed.

Lemma posts_app (s : stage) (t1 t2 : trace) :
  posts s (t1 ++ t2)%list = (posts s t1 ++ posts s t2)%list.
Proof.
  induction t1 as [|[s' req|msg] t1 IH]; cbn; [reflexivity| |exact IH].
  destruct (stage_eqb s s'); cbn; now rewrite IH.
Qed.

Lemma stages_app (t1 t2 : trace) :
  stages (t1 ++ t2)%list = (stages t1 ++ stages t2)%list.
Proof.
  induction t1 as [|[s' req|msg] t1 IH]; cbn; [reflexivity| |exact IH].
  now rewrite IH.
Qed.

Lemma query_documents_posts (s : stage) (request : QueryRequest) :
  posts s (fst (query_documents cfg w P request))
  = (posts s (fst (search_documents cfg w (query request) (top_k request) (filter request)))
     ++ match snd (search_documents cfg w (query request) (top_k request) (filter request)) with
        | inl _ => []
        | inr search_results =>
            posts s (fst (generate_answer cfg w (query request) search_results))
        end)%list.
Proof.
  unfold query_documents, try_except, bind, logger_error, emit, raise, lift.
  destruct (search_documents cfg w (query request) (top_k request) (filter request))
    as [t1 [e|search_results]]; cbn.
  - rewrite posts_app. reflexivity.
  - destruct (generate_answer cfg w (query request) search_results) as [t2 [e|pair]];
      cbn.
    + rewrite !posts_app. cbn. rewrite app_nil_r. reflexivity.
    + destruct (new_ChatResponse P (fst pair) (snd pair)); cbn;
        rewrite ?posts_app; cbn; rewrite ?app_nil_r; reflexivity.
Qed.

Lemma query_documents_stages (request : QueryRequest) :
  stages (fst (query_documents cfg w P request))
  = (stages (fst (search_documents cfg w (query request) (top_k request) (filter request)))
     ++ match snd (search_documents cfg w (query request) (top_k request) (filter request)) with
        | inl _ => []
        | inr search_results =>
            stages (fst (generate_answer cfg w (query request) search_results))
        end)%list.
Proof.
  unfold query_documents, try_except, bind, logger_error, emit, raise, lift.
  destruct (search_documents cfg w (query request) (top_k request) (filter request))
    as [t1 [e|search_results]]; cbn.
  - rewrite stages_app. reflexivity.
  - destruct (generate_answer cfg w (query request) search_results) as [t2 [e|pair]];
      cbn.
    + rewrite !stages_app. cbn. rewrite app_nil_r. reflexivity.
    + destruct (new_ChatResponse P (fst pair) (snd pair)); cbn;
        rewrite ?stages_app; cbn; rewrite ?app_nil_r; reflexivity.
Qed.

End Stages.

(** ** Extraction, and what makes the join raise *)

Lemma extract_answer_iff (payload content : json) :
  extract_answer payload = inr content <-> first_content payload content.
Proof.
  unfold extract_answer, first_content. split.
  - destruct payload as [ | | | | | |fields]; try (cbn; discriminate).
    cbn [py_getitem]. destruct (dict_lookup "choices" fields) as [choices|] eqn:E1;
      cbn [rbind ok throw]; [|discriminate].
    destruct choices as [ | | | |[|c s]|[|first rest]| ]; try (cbn; discriminate).
    cbn [py_getitem0 rbind ok].
    destruct first as [ | | | | | |choice]; try (cbn; discriminate).
    cbn [py_getitem]. destruct (dict_lookup "message" choice) as [message|] eqn:E2;
      cbn [rbind ok throw]; [|discriminate].
    destruct message as [ | | | | | |message]; try (cbn; discriminate).
    cbn [py_getitem]. destruct (dict_lookup "content" message) as [v|] eqn:E3;
      cbn [ok throw]; [|discriminate].
    intros E. injection E as <-. exists fields, choice, rest, message. repeat split; assumption.
  - intros (fields & choice & rest & message & -> & E1 & E2 & E3).
    cbn [py_getitem]. rewrite E1. cbn [rbind ok py_getitem0 py_getitem].
    rewrite E2. cbn [rbind ok py_getitem]. rewrite E3. reflexivity.
Qed.

Lemma join_from_inv (sep : string) (records : list dict) :
  forall i s,
    join_from i sep (chunk_values records) = inr s ->
    forallb chunk_is_text records = true.
Proof.
  induction records as [|fields records IH]; intros i s E; [reflexivity|].
  rewrite (chunk_values_cons fields records) in E.
  unfold chunk_values at 1 in E. cbn [flat_map] in E.
  cbn [forallb]. unfold chunk_is_text at 1.
  destruct (dict_lookup "chunk" fields) as [v|]; cbn [app] in E.
  - destruct v; try (cbn in E; discriminate).
    cbn [join_from] in E.
    destruct (join_from (S i) sep (chunk_values records)) as [e|tail] eqn:Etail;
      [cbn in E; discriminate|].
    exact (IH _ _ Etail).
  - exact (IH _ _ E).
Qed.

Lemma build_context_dicts (records : list dict) :
  build_context (JArr (map JObj records))
  = rbind (py_join (nl ++ nl) (chunk_values records))
      (fun context => ok (context, map source_of records)).
Proof.
  unfold build_context. cbn [py_iter rbind ok].
  rewrite for_each_records. reflexivity.
Qed.

Lemma join_from_raises_TypeError (sep : string) (items : list json) :
  forall i e, join_from i sep items = inl e -> exists msg, e = TypeError msg.
Proof.
  induction items as [|x items IH]; intros i e E; [discriminate|].
  cbn [join_from] in E.
  destruct x; try (injection E as <-; eexists; reflexivity).
  destruct (join_from (S i) sep items) as [e'|tail] eqn:Etail; cbn [rbind ok] in E;
    [|discriminate].
  injection E as <-. exact (IH _ _ Etail).
Qed.

(** ** Properties of the pipeline *)

Section Claims.

Variable cfg : config.
Variable w : world.
Variable P : pydantic.

(** C1 (as amended): for every QueryRequest, [query_documents] returns
    either a ChatResponse whose sources are derived one by one, in order,
    from the items the Retriever returned (so there are exactly as many
    sources as returned records, whatever [top_k] is), or the error 500 whose
    detail is "Error processing query: " followed by the text of the
    exception; every exception raised by either stage is converted into that
    error, and there is no third outcome. *)
Theorem query_documents_result (request : QueryRequest) :
  ((exists detail,
      snd (query_documents cfg w P request)
      = inl (HTTPException 500 ("Error processing query: " ++ detail)))
   \/ (exists c search_results items,
         snd (query_documents cfg w P request) = inr c
         /\ snd (search_documents cfg w (query request) (top_k request) (filter request))
            = inr search_results
         /\ py_iter search_results = inr items
         /\ Forall2 derived items (sources c)
         /\ List.length (sources c) = List.length items))
  /\ (forall e,
        snd (search_documents cfg w (query request) (top_k request) (filter request)) = inl e ->
        snd (query_documents cfg w P request)
        = inl (HTTPException 500 ("Error processing query: " ++ str_exn e)))
  /\ (forall search_results e,
        snd (search_documents cfg w (query request) (top_k request) (filter request))
        = inr search_results ->
        snd (generate_answer cfg w (query request) search_results) = inl e ->
        snd (query_documents cfg w P request)
        = inl (HTTPException 500 ("Error processing query: " ++ str_exn e))).
Proof.
  rewrite query_documents_snd.
  destruct (snd (search_documents cfg w (query request) (top_k request) (filter request)))
    as [e|search_results] eqn:Esearch; cbn [rbind].
  { split; [left; eexists; reflexivity|].
    split; [intros e' E; injection E as <-; reflexivity | intros ? ? E; discriminate]. }
  destruct (snd (generate_answer cfg w (query request) search_results))
    as [e|[a srcs]] eqn:Egen; cbn [rbind fst snd].
  { split; [left; eexists; reflexivity|].
    split; [intros e' E; discriminate|].
    intros sr e' E1 E2. injection E1 as <-. rewrite Egen in E2. injection E2 as <-.
    reflexivity. }
  split.
  - unfold new_ChatResponse.
    destruct (validate_str P a) as [msg|text_]; [left; eexists; reflexivity|].
    right. apply generate_answer_inv in Egen. destruct Egen as (context & Ebuild).
    apply build_context_inv in Ebuild. destruct Ebuild as (items & Eiter & Hall).
    exists {| answer := text_; sources := srcs |}, search_results, items.
    cbn [sources]. repeat split; try assumption.
    symmetry. exact (Forall2_length Hall).
  - split; [intros e' E; discriminate|].
    intros sr e' E1 E2. injection E1 as <-. rewrite Egen in E2. discriminate.
Qed.

(** C2: on every list of records [generate_answer] builds one source per
    record, in the same order, taking [title], [url], [chunk_id] and [score]
    from the record's [title], [url], [id] and [@search.score] and defaulting
    to "Unknown Document", "", "" and 0 when the field is missing.  What
    [generate_answer] does is decided by the join of the chunks and by the
    generation call alone, never by a missing field: it raises only where
    these raise, and wherever it returns, it returns these sources; it does
    return them when the chunks are texts and the generation call is answered
    200 with a first content. *)
Theorem sources_mirror_records (q : string) (records : list dict) :
  let sources :=
    map (fun fields =>
           [ ("title", match dict_lookup "title" fields with
                       | Some v => v
                       | None => JStr "Unknown Document"
                       end);
             ("url", match dict_lookup "url" fields with Some v => v | None => JStr "" end);
             ("chunk_id", match dict_lookup "id" fields with Some v => v | None => JStr "" end);
             ("score", match dict_lookup "@search.score" fields with
                       | Some v => v
                       | None => JInt 0
                       end) ]) records in
  List.length sources = List.length records
  /\ snd (generate_answer cfg w q (JArr (map JObj records)))
     = rbind (py_join (nl ++ nl) (chunk_values records))
         (fun context =>
            match http_post w (openai_request cfg context q) with
            | Raises e => inl e
            | Responds r =>
                if status_code r =? 200
                then rbind (response_json r)
                       (fun result =>
                          rbind (extract_answer result) (fun answer => ok (answer, sources)))
                else inl (HTTPException (status_code r) (text r))
            end)
  /\ (forall r payload content,
        forallb chunk_is_text records = true ->
        http_post w (openai_request cfg (String.concat (nl ++ nl) (chunk_texts records)) q)
        = Responds r ->
        status_code r = 200 ->
        json_payload r = inr payload ->
        first_content payload content ->
        snd (generate_answer cfg w q (JArr (map JObj records))) = inr (content, sources)).
Proof.
  intros sources.
  assert (sources = map source_of records) as -> by reflexivity.
  split; [apply length_map|]. split.
  - pose proof (build_context_dicts records) as Eb.
    destruct (py_join (nl ++ nl) (chunk_values records)) as [e|context];
      cbn [rbind ok] in Eb |- *.
    + unfold generate_answer, try_except, bind, lift, logger_error, emit, raise.
      rewrite Eb. reflexivity.
    + destruct (http_post w (openai_request cfg context q)) as [e|r] eqn:Hpost.
      * unfold generate_answer, client_post, try_except, bind, lift, logger_error,
          emit, raise, ret.
        rewrite Eb. cbn. rewrite Hpost. reflexivity.
      * destruct (status_code r =? 200) eqn:Hstatus.
        -- apply Z.eqb_eq in Hstatus.
           exact (generate_answer_200 cfg w _ _ _ _ r Eb Hpost Hstatus).
        -- apply Z.eqb_neq in Hstatus.
           exact (generate_answer_status cfg w _ _ _ _ r Eb Hpost Hstatus).
  - intros r payload content Htext Hpost Hstatus Hjson Hcontent.
    rewrite (generate_answer_200 cfg w _ _ _ _ r (build_context_records records Htext)
               Hpost Hstatus).
    unfold response_json. rewrite Hjson. cbn [rbind ok].
    apply extract_answer_iff in Hcontent. rewrite Hcontent. reflexivity.
Qed.

(** C3 (as amended): on records whose [chunk], when present, is a text,
    the context is the chunk texts of exactly the records that have a
    [chunk], in input order, joined by a blank line; every record, with or
    without [chunk], gives a source; the generation request is posted once
    with that context, also when no record has a chunk and the context is the
    empty string.  When some record has a [chunk] that is not a text, the join
    raises [TypeError] and no generation request is posted. *)
Theorem context_joins_chunks (q : string) (records : list dict) :
  (forallb chunk_is_text records = true ->
   build_context (JArr (map JObj records))
   = inr (String.concat (nl ++ nl) (chunk_texts records), map source_of records)
   /\ posts Answerer (fst (generate_answer cfg w q (JArr (map JObj records))))
      = [openai_request cfg (String.concat (nl ++ nl) (chunk_texts records)) q]
   /\ (forallb (fun fields => negb (dict_mem "chunk" fields)) records = true ->
       build_context (JArr (map JObj records)) = inr ("", map source_of records)
       /\ posts Answerer (fst (generate_answer cfg w q (JArr (map JObj records))))
          = [openai_request cfg "" q]))
  /\ (forallb chunk_is_text records = false ->
      exists msg,
        build_context (JArr (map JObj records)) = inl (TypeError msg)
        /\ snd (generate_answer cfg w q (JArr (map JObj records))) = inl (TypeError msg)
        /\ posts Answerer (fst (generate_answer cfg w q (JArr (map JObj records)))) = []).
Proof.
  pose proof (generate_answer_stages cfg w q (JArr (map JObj records))) as (_ & Eposts & _).
  split.
  - intros Htext.
    pose proof (build_context_records records Htext) as Ebuild.
    rewrite Ebuild in Eposts. cbn [fst] in Eposts.
    split; [exact Ebuild|]. split; [exact Eposts|].
    intros Hnone.
    assert (chunk_texts records = []) as Enone.
    { clear -Hnone. induction records as [|fields records IH]; [reflexivity|].
      cbn [forallb] in Hnone. apply andb_true_iff in Hnone. destruct Hnone as [Hf Hr].
      unfold chunk_texts in *. cbn [flat_map]. rewrite IH by exact Hr.
      unfold dict_mem in Hf.
      destruct (dict_lookup "chunk" fields); [discriminate|reflexivity]. }
    rewrite Enone in Ebuild, Eposts. split; assumption.
  - intros Hbad.
    pose proof (build_context_dicts records) as Eb.
    destruct (py_join (nl ++ nl) (chunk_values records)) as [e|context] eqn:Ejoin;
      cbn [rbind ok] in Eb.
    + destruct (join_from_raises_TypeError _ _ _ _ Ejoin) as (msg & ->).
      exists msg. rewrite Eb in Eposts. split; [exact Eb|]. split; [|exact Eposts].
      unfold generate_answer, try_except, bind, lift, logger_error, emit, raise.
      rewrite Eb. reflexivity.
    + rewrite (join_from_inv _ _ _ _ Ejoin) in Hbad. discriminate.
Qed.

(** C4: in every run of [query_documents] the generation request, if any,
    is posted after a search that was answered with status 200; when the
    search is answered with another status, the handler gives the error 500
    whose detail carries that status and the upstream body, and the Answerer
    posts nothing. *)
Theorem search_failure_skips_answerer (request : QueryRequest) :
  (stages (fst (query_documents cfg w P request)) = [Retriever]
   \/ (stages (fst (query_documents cfg w P request)) = [Retriever; Answerer]
       /\ exists r,
            http_post w (search_request cfg (query request) (top_k request) (filter request))
            = Responds r
            /\ status_code r = 200))
  /\ (forall r,
        http_post w (search_request cfg (query request) (top_k request) (filter request))
        = Responds r ->
        status_code r <> 200 ->
        snd (query_documents cfg w P request)
        = inl (HTTPException 500
                 ("Error processing query: " ++ string_of_Z (status_code r) ++ ": " ++ text r))
        /\ posts Answerer (fst (query_documents cfg w P request)) = []
        /\ stages (fst (query_documents cfg w P request)) = [Retriever]).
Proof.
  pose proof (search_documents_stages cfg w (query request) (top_k request) (filter request))
    as (Est & _ & Epa).
  split.
  - rewrite query_documents_stages, Est.
    destruct (snd (search_documents cfg w (query request) (top_k request) (filter request)))
      as [e|search_results] eqn:Esearch; [left; reflexivity|].
    pose proof (generate_answer_stages cfg w (query request) search_results) as (Egs & _).
    rewrite Egs. destruct (build_context search_results); [left; reflexivity|].
    right. split; [reflexivity|]. exact (search_documents_inv _ _ _ _ _ _ Esearch).
  - intros r Hpost Hstatus.
    pose proof (search_documents_status cfg w _ _ _ r Hpost Hstatus) as Esearch.
    rewrite query_documents_snd, query_documents_posts, query_documents_stages.
    rewrite Esearch, Epa, Est. repeat split.
Qed.

(** C5: a stage whose outbound call is answered with a status other than
    200 raises an error carrying that status and the upstream body, and has
    posted exactly once: [search_documents] for the search call,
    [generate_answer] for the generation call. *)
Theorem upstream_status_is_raised :
  (forall q k f r,
     http_post w (search_request cfg q k f) = Responds r ->
     status_code r <> 200 ->
     snd (search_documents cfg w q k f) = inl (HTTPException (status_code r) (text r))
     /\ posts Retriever (fst (search_documents cfg w q k f)) = [search_request cfg q k f])
  /\ (forall q search_results context srcs r,
        build_context search_results = inr (context, srcs) ->
        http_post w (openai_request cfg context q) = Responds r ->
        status_code r <> 200 ->
        snd (generate_answer cfg w q search_results)
        = inl (HTTPException (status_code r) (text r))
        /\ posts Answerer (fst (generate_answer cfg w q search_results))
           = [openai_request cfg context q]).
Proof.
  split.
  - intros q k f r Hpost Hstatus. split.
    + exact (search_documents_status cfg w q k f r Hpost Hstatus).
    + apply search_documents_stages.
  - intros q search_results context srcs r Hbuild Hpost Hstatus. split.
    + exact (generate_answer_status cfg w q search_results context srcs r Hbuild Hpost Hstatus).
    + pose proof (generate_answer_stages cfg w q search_results) as (_ & Eposts & _).
      rewrite Hbuild in Eposts. exact Eposts.
Qed.

(** C6: the body of the search request has [search] and the text of the
    one vector query equal to the query, [queryType] "semantic", and both
    [k] and [top] equal to [top_k]; it has a [filter] entry, holding the given
    text, exactly when the filter is a non-empty text; and this body is what
    [search_documents] posts. *)
Theorem search_body_fields (q : string) (k : Z) (f : option string) :
  dict_lookup "search" (search_body q k f) = Some (JStr q)
  /\ dict_lookup "queryType" (search_body q k f) = Some (JStr "semantic")
  /\ dict_lookup "vectorQueries" (search_body q k f)
     = Some (JArr [ JObj [ ("kind", JStr "text"); ("text", JStr q);
                           ("fields", JStr "text_vector"); ("k", JInt k) ] ])
  /\ dict_lookup "top" (search_body q k f) = Some (JInt k)
  /\ dict_lookup "filter" (search_body q k f)
     = match f with
       | Some s => if String.eqb s "" then None else Some (JStr s)
       | None => None
       end
  /\ dict_keys (search_body q k f)
     = (["search"; "queryType"; "vectorQueries"; "top"]
        ++ match f with
           | Some s => if String.eqb s "" then [] else ["filter"]
           | None => []
           end)%list
  /\ map req_json (posts Retriever (fst (search_documents cfg w q k f)))
     = [search_body q k f].
Proof.
  assert (map req_json (posts Retriever (fst (search_documents cfg w q k f)))
          = [search_body q k f]) as Eposted.
  { pose proof (search_documents_stages cfg w q k f) as (_ & -> & _). reflexivity. }
  destruct f as [[|c s]|]; cbn; repeat split; exact Eposted.
Qed.

(** C7: when the Retriever returns no record, the handler still posts the
    generation request, once, with the empty string as context; and when that
    call is answered with status 200 and a first completion whose content is
    a text, the handler returns that text with an empty list of sources. *)
Theorem empty_retrieval_still_answers (request : QueryRequest) :
  snd (search_documents cfg w (query request) (top_k request) (filter request))
  = inr (JArr []) ->
  posts Answerer (fst (query_documents cfg w P request))
  = [openai_request cfg "" (query request)]
  /\ (forall r payload a,
        http_post w (openai_request cfg "" (query request)) = Responds r ->
        status_code r = 200 ->
        json_payload r = inr payload ->
        first_content payload (JStr a) ->
        snd (query_documents cfg w P request) = inr {| answer := a; sources := [] |}).
Proof.
  intros Esearch.
  assert (build_context (JArr []) = inr ("", [])) as Ebuild by reflexivity.
  split.
  - rewrite query_documents_posts, Esearch.
    pose proof (search_documents_stages cfg w (query request) (top_k request) (filter request))
      as (_ & _ & ->).
    pose proof (generate_answer_stages cfg w (query request) (JArr [])) as (_ & -> & _).
    reflexivity.
  - intros r payload a Hpost Hstatus Hjson Hcontent.
    rewrite query_documents_snd, Esearch. cbn [rbind].
    rewrite (generate_answer_200 cfg w _ _ _ _ r Ebuild Hpost Hstatus).
    unfold response_json. rewrite Hjson. cbn [rbind ok].
    apply extract_answer_iff in Hcontent. rewrite Hcontent. cbn [rbind ok fst snd].
    unfold new_ChatResponse. rewrite validate_str_JStr. reflexivity.
Qed.

(** C8 (as amended): a body with a text [query] and an integer [top_k] is
    accepted whatever the text and the integer are, the empty text and
    integers below one included; a request parsed from a body without
    [top_k] has [top_k] 3, one parsed from a body without [filter] has no
    filter; and every accepted request is passed to the Retriever as it
    is. *)
Theorem accepted_requests_reach_retriever :
  (forall q k,
     parse_QueryRequest P (JObj [ ("query", JStr q); ("top_k", JInt k) ])
     = Some {| query := q; top_k := k; filter := None |})
  /\ (forall body request,
        parse_QueryRequest P body = Some request ->
        (exists fields,
           body = JObj fields
           /\ (dict_lookup "top_k" fields = None -> top_k request = 3)
           /\ (dict_lookup "filter" fields = None -> filter request = None))
        /\ posts Retriever (fst (post_query cfg w P body))
           = [search_request cfg (query request) (top_k request) (filter request)]).
Proof.
  split.
  - intros q k. unfold parse_QueryRequest. cbn [dict_lookup String.eqb Ascii.eqb Bool.eqb].
    cbn. rewrite validate_str_JStr, validate_int_JInt. reflexivity.
  - intros body request Hparse. split.
    + unfold parse_QueryRequest in Hparse.
      destruct body as [ | | | | | |fields]; try discriminate.
      exists fields. split; [reflexivity|].
      destruct (dict_lookup "query" fields) as [qv|]; [|discriminate].
      destruct (validate_str P qv) as [msg|q]; [discriminate|].
      split; intros E; rewrite E in Hparse.
      * destruct (match dict_lookup "filter" fields with
                  | Some JNull => inr None
                  | Some f => match validate_str P f with
                              | inl msg => inl msg
                              | inr s => inr (Some s)
                              end
                  | None => inr None
                  end) as [msg|fl]; [discriminate|].
        injection Hparse as <-. reflexivity.
      * destruct (match dict_lookup "top_k" fields with
                  | Some k => validate_int P k
                  | None => inr 3
                  end) as [msg|k]; [discriminate|].
        injection Hparse as <-. reflexivity.
    + unfold post_query. rewrite Hparse.
      destruct (query_documents cfg w P request) as [t r] eqn:Erun. cbn [fst].
      change t with (fst (t, r)). rewrite <- Erun.
      rewrite query_documents_posts.
      pose proof (search_documents_stages cfg w (query request) (top_k request) (filter request))
        as (_ & -> & _).
      destruct (snd (search_documents cfg w (query request) (top_k request) (filter request)))
        as [e|search_results]; [reflexivity|].
      pose proof (generate_answer_stages cfg w (query request) search_results) as (_ & _ & ->).
      reflexivity.
Qed.

(** C9: when the search call is answered with status 200 and a payload
    object without a [value] entry, [search_documents] returns the empty
    list, and raises nothing. *)
Theorem missing_value_is_no_match (q : string) (k : Z) (f : option string)
    (r : response) (fields : dict) :
  http_post w (search_request cfg q k f) = Responds r ->
  status_code r = 200 ->
  json_payload r = inr (JObj fields) ->
  dict_lookup "value" fields = None ->
  snd (search_documents cfg w q k f) = inr (JArr []).
Proof.
  intros Hpost Hstatus Hjson Hvalue.
  rewrite (search_documents_200 cfg w q k f r Hpost Hstatus).
  unfold response_json. rewrite Hjson. cbn [rbind ok py_get].
  unfold dict_get. rewrite Hvalue. reflexivity.
Qed.

(** C10: on a generation call answered with status 200, the extraction
    [result["choices"][0]["message"]["content"]] succeeds exactly when the
    payload has a first choice with a message carrying a content, and
    [generate_answer] then returns that content with the sources; otherwise
    the extraction raises and [query_documents] gives the error 500 with the
    text of that exception instead of a ChatResponse. *)
Theorem answer_extraction_is_partial (request : QueryRequest) (search_results : json)
    (context : string) (srcs : list dict) (r : response) (payload : json) :
  snd (search_documents cfg w (query request) (top_k request) (filter request))
  = inr search_results ->
  build_context search_results = inr (context, srcs) ->
  http_post w (openai_request cfg context (query request)) = Responds r ->
  status_code r = 200 ->
  json_payload r = inr payload ->
  (forall content, extract_answer payload = inr content <-> first_content payload content)
  /\ match extract_answer payload with
     | inr content =>
         first_content payload content
         /\ snd (generate_answer cfg w (query request) search_results) = inr (content, srcs)
     | inl e =>
         (forall content, ~ first_content payload content)
         /\ snd (generate_answer cfg w (query request) search_results) = inl e
         /\ snd (query_documents cfg w P request)
            = inl (HTTPException 500 ("Error processing query: " ++ str_exn e))
     end.
Proof.
  intros Esearch Ebuild Hpost Hstatus Hjson.
  split; [intros content; apply extract_answer_iff|].
  pose proof (generate_answer_200 cfg w _ _ _ _ r Ebuild Hpost Hstatus) as Egen.
  unfold response_json in Egen. rewrite Hjson in Egen. cbn [rbind ok] in Egen.
  destruct (extract_answer payload) as [e|content] eqn:Eextract; cbn [rbind ok] in Egen.
  - split; [|split].
    + intros content Hc. apply extract_answer_iff in Hc. rewrite Hc in Eextract. discriminate.
    + exact Egen.
    + rewrite query_documents_snd, Esearch. cbn [rbind]. rewrite Egen. reflexivity.
  - split; [now apply extract_answer_iff | exact Egen].
Qed.

End Claims.

(** ** The scenarios of the specification, run on the model *)

(** Two records with chunk text give an answer and two sources in order. *)
Example scenario_two_records :
  snd (query_documents cfg0
         (serve (answers (hits [rec_refunds; rec_returns])) good_answer) strict
         (ask "What is the refund policy?" 2))
  = inr {| answer := "Refunds take 30 days.";
           sources := [ [ ("title", JStr "Refund policy");
                          ("url", JStr "https://docs.example/refunds");
                          ("chunk_id", JStr "policy-0");
                          ("score", JFloat half) ];
                        [ ("title", JStr "Returns");
                          ("url", JStr "");
                          ("chunk_id", JStr "policy-1");
                          ("score", JInt 0) ] ] |}.
Proof. reflexivity. Qed.

(** A search answered 503: one outbound call, three log lines, error 500. *)
Example scenario_search_down :
  post_query cfg0 w_search_down strict (JObj [ ("query", JStr "x") ])
  = ([ EvPost Retriever (search_request cfg0 "x" 3 None);
       EvLog "Search API error: 503 Service Unavailable";
       EvLog "Error searching documents: 503: Service Unavailable";
       EvLog "Error processing query: 503: Service Unavailable" ],
     ReplyError 500 "Error processing query: 503: Service Unavailable").
Proof. reflexivity. Qed.

(** A filter is attached verbatim; an empty filter is not attached. *)
Example scenario_filter :
  dict_lookup "filter" (search_body "y" 3 (Some "category eq 'faq'"))
  = Some (JStr "category eq 'faq'")
  /\ dict_mem "filter" (search_body "y" 3 None) = false
  /\ dict_mem "filter" (search_body "y" 3 (Some "")) = false.
Proof. repeat split. Qed.

(** A returned model that cannot be encoded: the plain server error,
    after both posts and without any log line. *)
Example unencodable_answer :
  post_query cfg0 w_none strict_unencodable (JObj [ ("query", JStr "y") ])
  = ([ EvPost Retriever (search_request cfg0 "y" 3 None);
       EvPost Answerer (openai_request cfg0 "" "y") ],
     ReplyServerError).
Proof. reflexivity. Qed.

(** A record whose [chunk] is [null] makes the join raise. *)
Example null_chunk_raises :
  snd (query_documents cfg0
         (serve (answers (hits [ [ ("chunk", JNull) ] ])) good_answer) strict (ask "x" 3))
  = inl (HTTPException 500
           "Error processing query: sequence item 0: expected str instance, NoneType found").
Proof. reflexivity. Qed.

(** ** Instances of the properties, and what fails *)

(** C1 as stated fails: with [top_k] 1 and a search answered with two
    records, the handler returns a ChatResponse with two sources. *)
Lemma sources_can_exceed_top_k :
  query (ask "What is the refund policy?" 1) <> ""
  /\ 0 < top_k (ask "What is the refund policy?" 1)
  /\ exists c,
       snd (query_documents cfg0 w_two strict (ask "What is the refund policy?" 1)) = inr c
       /\ top_k (ask "What is the refund policy?" 1) < Z.of_nat (List.length (sources c)).
Proof.
  split; [discriminate|]. split; [reflexivity|].
  eexists. split; [reflexivity|]. reflexivity.
Qed.

Lemma query_documents_result_witness :
  snd (query_documents cfg0 w_search_down strict (ask "x" 3))
  = inl (HTTPException 500 "Error processing query: 503: Service Unavailable").
Proof.
  apply (proj1 (proj2 (query_documents_result cfg0 w_search_down strict (ask "x" 3)))
           (HTTPException 503 "Service Unavailable")).
  reflexivity.
Defined.

Lemma sources_mirror_records_witness :
  snd (generate_answer cfg0 w_two "What is the refund policy?"
         (JArr (map JObj [rec_refunds; rec_bare])))
  = inr (JStr "Refunds take 30 days.",
         [ [ ("title", JStr "Refund policy");
             ("url", JStr "https://docs.example/refunds");
             ("chunk_id", JStr "policy-0");
             ("score", JFloat half) ];
           [ ("title", JStr "Unknown Document");
             ("url", JStr "https://docs.example/faq");
             ("chunk_id", JStr "");
             ("score", JInt 0) ] ]).
Proof.
  apply (proj2 (proj2 (sources_mirror_records cfg0 w_two "What is the refund policy?"
                         [rec_refunds; rec_bare]))
           good_answer (completion (JStr "Refunds take 30 days."))
           (JStr "Refunds take 30 days.")); try reflexivity.
  eexists _, _, _, _. repeat split.
Defined.

(** C3 as stated fails: a record that has a [chunk] field holding [null]
    contributes no text; the join raises, no generation request is posted and
    the handler answers 500. *)
Lemma null_chunk_breaks_context :
  dict_mem "chunk" rec_null_chunk = true
  /\ build_context (JArr (map JObj [rec_null_chunk]))
     = inl (TypeError "sequence item 0: expected str instance, NoneType found")
  /\ posts Answerer
       (fst (generate_answer cfg0 w_null_chunk "x" (JArr (map JObj [rec_null_chunk])))) = []
  /\ snd (query_documents cfg0 w_null_chunk strict (ask "x" 3))
     = inl (HTTPException 500
              "Error processing query: sequence item 0: expected str instance, NoneType found").
Proof. repeat split. Qed.

Lemma context_joins_chunks_witness :
  build_context (JArr (map JObj [rec_refunds; rec_bare; rec_returns]))
  = inr ("Refunds are issued within 30 days." ++ nl ++ nl
         ++ "Contact support to start a return.",
         map source_of [rec_refunds; rec_bare; rec_returns])
  /\ exists msg,
       build_context (JArr (map JObj [rec_refunds; rec_null_chunk])) = inl (TypeError msg)
       /\ snd (generate_answer cfg0 w_null_chunk "x"
                 (JArr (map JObj [rec_refunds; rec_null_chunk])))
          = inl (TypeError msg)
       /\ posts Answerer
            (fst (generate_answer cfg0 w_null_chunk "x"
                    (JArr (map JObj [rec_refunds; rec_null_chunk])))) = [].
Proof.
  split.
  - apply (proj1 (proj1 (context_joins_chunks cfg0 w_three "What is the refund policy?"
                           [rec_refunds; rec_bare; rec_returns]) eq_refl)).
  - apply (proj2 (context_joins_chunks cfg0 w_null_chunk "x" [rec_refunds; rec_null_chunk])).
    reflexivity.
Defined.

Lemma search_failure_skips_answerer_witness :
  snd (query_documents cfg0 w_search_down strict (ask "x" 3))
  = inl (HTTPException 500 "Error processing query: 503: Service Unavailable")
  /\ posts Answerer (fst (query_documents cfg0 w_search_down strict (ask "x" 3))) = []
  /\ stages (fst (query_documents cfg0 w_search_down strict (ask "x" 3))) = [Retriever].
Proof.
  apply (proj2 (search_failure_skips_answerer cfg0 w_search_down strict (ask "x" 3))
           (fails 503 "Service Unavailable")).
  - reflexivity.
  - discriminate.
Defined.

Lemma upstream_status_is_raised_witness :
  snd (search_documents cfg0 w_search_down "x" 3 None)
  = inl (HTTPException 503 "Service Unavailable")
  /\ snd (generate_answer cfg0 w_openai_down "x" (JArr [JObj rec_refunds]))
     = inl (HTTPException 429 "Too Many Requests").
Proof.
  split.
  - apply (proj1 (upstream_status_is_raised cfg0 w_search_down) "x" 3 None
             (fails 503 "Service Unavailable")).
    + reflexivity.
    + discriminate.
  - apply (proj2 (upstream_status_is_raised cfg0 w_openai_down) "x" (JArr [JObj rec_refunds])
             "Refunds are issued within 30 days." [source_of rec_refunds]
             (fails 429 "Too Many Requests")).
    + reflexivity.
    + reflexivity.
    + discriminate.
Defined.

Lemma empty_retrieval_still_answers_witness :
  posts Answerer (fst (query_documents cfg0 w_none strict (ask "y" 3)))
  = [openai_request cfg0 "" "y"]
  /\ snd (query_documents cfg0 w_none strict (ask "y" 3))
     = inr {| answer := "Refunds take 30 days."; sources := [] |}.
Proof.
  pose proof (empty_retrieval_still_answers cfg0 w_none strict (ask "y" 3) eq_refl)
    as [Hposts Hanswer].
  split; [exact Hposts|].
  apply (Hanswer good_answer (completion (JStr "Refunds take 30 days."))).
  - reflexivity.
  - reflexivity.
  - reflexivity.
  - eexists _, _, _, _. repeat split.
Defined.

(** C8 as stated fails: a body with the empty query and [top_k] 0 is
    accepted and reaches the Retriever. *)
Lemma empty_query_and_zero_top_k_accepted :
  exists request,
    parse_QueryRequest strict (JObj [ ("query", JStr ""); ("top_k", JInt 0) ]) = Some request
    /\ posts Retriever
         (fst (post_query cfg0 w_two strict (JObj [ ("query", JStr ""); ("top_k", JInt 0) ])))
       = [search_request cfg0 (query request) (top_k request) (filter request)]
    /\ query request = ""
    /\ ~ (0 < top_k request).
Proof.
  exists {| query := ""; top_k := 0; filter := None |}.
  repeat split. intros H. discriminate H.
Qed.

Lemma accepted_requests_reach_retriever_witness :
  (exists fields,
     JObj [ ("query", JStr "What is the refund policy?") ] = JObj fields
     /\ (dict_lookup "top_k" fields = None -> top_k (ask "What is the refund policy?" 3) = 3)
     /\ (dict_lookup "filter" fields = None
         -> filter (ask "What is the refund policy?" 3) = None))
  /\ posts Retriever
       (fst (post_query cfg0 w_two strict (JObj [ ("query", JStr "What is the refund policy?") ])))
     = [search_request cfg0 "What is the refund policy?" 3 None].
Proof.
  apply (proj2 (accepted_requests_reach_retriever cfg0 w_two strict)
           (JObj [ ("query", JStr "What is the refund policy?") ])
           (ask "What is the refund policy?" 3)).
  reflexivity.
Defined.

Lemma missing_value_is_no_match_witness :
  snd (search_documents cfg0 w_no_value "y" 3 None) = inr (JArr []).
Proof.
  apply (missing_value_is_no_match cfg0 w_no_value "y" 3 None
           (answers (JObj [ ("@odata.context", JStr "https://search.example/$metadata") ]))
           [ ("@odata.context", JStr "https://search.example/$metadata") ]);
    reflexivity.
Defined.

Lemma answer_extraction_is_partial_witness :
  snd (generate_answer cfg0 w_two "x" (JArr [JObj rec_refunds; JObj rec_bare]))
  = inr (JStr "Refunds take 30 days.", [source_of rec_refunds; source_of rec_bare])
  /\ snd (query_documents cfg0 w_no_choices strict (ask "x" 3))
     = inl (HTTPException 500 "Error processing query: list index out of range").
Proof.
  split.
  - apply (proj2 (answer_extraction_is_partial cfg0 w_two strict (ask "x" 3)
                    (JArr [JObj rec_refunds; JObj rec_bare])
                    "Refunds are issued within 30 days."
                    [source_of rec_refunds; source_of rec_bare]
                    good_answer (completion (JStr "Refunds take 30 days."))
                    eq_refl eq_refl eq_refl eq_refl eq_refl)).
  - apply (proj2 (answer_extraction_is_partial cfg0 w_no_choices strict (ask "x" 3)
                    (JArr [JObj rec_refunds])
                    "Refunds are issued within 30 days."
                    [source_of rec_refunds]
                    (answers (JObj [ ("choices", JArr []) ]))
                    (JObj [ ("choices", JArr []) ])
                    eq_refl eq_refl eq_refl eq_refl eq_refl)).
Defined.

(** ** Further properties: the failure paths of the stages *)

Lemma derived_records (items : list json) (srcs : list dict) :
  Forall2 derived items srcs ->
  exists records, items = map JObj records /\ srcs = map source_of records.
Proof.
  induction 1 as [|item src items srcs (fields & -> & ->) _ (records & -> & ->)].
  - exists []. split; reflexivity.
  - exists (fields :: records). split; reflexivity.
Qed.

Section Extras.

Variable cfg : config.
Variable w : world.
Variable P : pydantic.

(** When the Retriever raises, the handler stops there. *)
Lemma retriever_failure_stops (request : QueryRequest) (e : exn) :
  snd (search_documents cfg w (query request) (top_k request) (filter request)) = inl e ->
  snd (query_documents cfg w P request)
  = inl (HTTPException 500 ("Error processing query: " ++ str_exn e))
  /\ stages (fst (query_documents cfg w P request)) = [Retriever].
Proof.
  intros E.
  rewrite query_documents_snd, query_documents_stages, E.
  pose proof (search_documents_stages cfg w (query request) (top_k request) (filter request))
    as (-> & _).
  split; reflexivity.
Qed.

(** When the Answerer raises, the handler turns that into its error. *)
Lemma answerer_failure_converted (request : QueryRequest) (search_results : json) (e : exn) :
  snd (search_documents cfg w (query request) (top_k request) (filter request))
  = inr search_results ->
  snd (generate_answer cfg w (query request) search_results) = inl e ->
  snd (query_documents cfg w P request)
  = inl (HTTPException 500 ("Error processing query: " ++ str_exn e)).
Proof.
  intros Es Eg. rewrite query_documents_snd, Es. cbn [rbind]. rewrite Eg. reflexivity.
Qed.

Lemma answerer_posted (request : QueryRequest) (search_results : json)
    (context : string) (srcs : list dict) :
  snd (search_documents cfg w (query request) (top_k request) (filter request))
  = inr search_results ->
  build_context search_results = inr (context, srcs) ->
  stages (fst (query_documents cfg w P request)) = [Retriever; Answerer].
Proof.
  intros Es Eb. rewrite query_documents_stages, Es.
  pose proof (search_documents_stages cfg w (query request) (top_k request) (filter request))
    as (-> & _).
  pose proof (generate_answer_stages cfg w (query request) search_results) as (-> & _).
  rewrite Eb. reflexivity.
Qed.

(** X1: a search call that raises (timeout, connection failure) makes
    [search_documents] log once and raise the same exception; the handler
    answers 500 with its text and the generation service is not called. *)
Theorem search_transport_failure (request : QueryRequest) (e : exn) :
  http_post w (search_request cfg (query request) (top_k request) (filter request))
  = Raises e ->
  search_documents cfg w (query request) (top_k request) (filter request)
  = ([ EvPost Retriever
         (search_request cfg (query request) (top_k request) (filter request));
       EvLog ("Error searching documents: " ++ str_exn e) ],
     inl e)
  /\ snd (query_documents cfg w P request)
     = inl (HTTPException 500 ("Error processing query: " ++ str_exn e))
  /\ stages (fst (query_documents cfg w P request)) = [Retriever].
Proof.
  intros Hpost.
  assert (search_documents cfg w (query request) (top_k request) (filter request)
          = ([ EvPost Retriever
                 (search_request cfg (query request) (top_k request) (filter request));
               EvLog ("Error searching documents: " ++ str_exn e) ],
             inl e)) as Erun.
  { unfold search_documents, client_post, try_except, bind, emit, logger_error, raise, ret.
    rewrite Hpost. reflexivity. }
  split; [exact Erun|].
  apply retriever_failure_stops. rewrite Erun. reflexivity.
Qed.

(** X2: a search answered 200 with a body that is not JSON makes
    [search_documents] raise the decoder's error; the handler answers 500
    and the generation service is not called. *)
Theorem search_body_not_json (request : QueryRequest) (r : response) (msg : string) :
  http_post w (search_request cfg (query request) (top_k request) (filter request))
  = Responds r ->
  status_code r = 200 ->
  json_payload r = inl msg ->
  snd (search_documents cfg w (query request) (top_k request) (filter request))
  = inl (JSONDecodeError msg)
  /\ snd (query_documents cfg w P request)
     = inl (HTTPException 500 ("Error processing query: " ++ msg))
  /\ stages (fst (query_documents cfg w P request)) = [Retriever].
Proof.
  intros Hpost Hstatus Hjson.
  assert (snd (search_documents cfg w (query request) (top_k request) (filter request))
          = inl (JSONDecodeError msg)) as Erun.
  { rewrite (search_documents_200 cfg w _ _ _ r Hpost Hstatus).
    unfold response_json. rewrite Hjson. reflexivity. }
  split; [exact Erun|].
  exact (retriever_failure_stops request (JSONDecodeError msg) Erun).
Qed.

(** X3: a search answered 200 with a payload that is not an object (a
    list, a string, a number, null) makes [search_documents] raise
    [AttributeError] on [results.get]; the handler answers 500. *)
Theorem search_payload_not_object (request : QueryRequest) (r : response) (payload : json) :
  http_post w (search_request cfg (query request) (top_k request) (filter request))
  = Responds r ->
  status_code r = 200 ->
  json_payload r = inr payload ->
  (forall fields, payload <> JObj fields) ->
  snd (search_documents cfg w (query request) (top_k request) (filter request))
  = inl (AttributeError (squote ++ type_name payload ++ squote
                         ++ " object has no attribute " ++ squote ++ "get" ++ squote))
  /\ stages (fst (query_documents cfg w P request)) = [Retriever]
  /\ snd (query_documents cfg w P request)
     = inl (HTTPException 500
              ("Error processing query: " ++ squote ++ type_name payload ++ squote
               ++ " object has no attribute " ++ squote ++ "get" ++ squote)).
Proof.
  intros Hpost Hstatus Hjson Hshape.
  assert (snd (search_documents cfg w (query request) (top_k request) (filter request))
          = inl (AttributeError (squote ++ type_name payload ++ squote
                                 ++ " object has no attribute " ++ squote ++ "get" ++ squote)))
    as Erun.
  { rewrite (search_documents_200 cfg w _ _ _ r Hpost Hstatus).
    unfold response_json. rewrite Hjson. cbn [rbind ok].
    destruct payload; try reflexivity. now destruct (Hshape fields). }
  split; [exact Erun|].
  destruct (retriever_failure_stops request _ Erun) as [Eres Est].
  split; [exact Est | exact Eres].
Qed.

(** X4: on a 200 answer whose payload has a [value] entry,
    [search_documents] returns that entry as it is, whatever its type, with
    one post and no log line. *)
Theorem search_returns_value_verbatim (q : string) (k : Z) (f : option string)
    (r : response) (fields : dict) (v : json) :
  http_post w (search_request cfg q k f) = Responds r ->
  status_code r = 200 ->
  json_payload r = inr (JObj fields) ->
  dict_lookup "value" fields = Some v ->
  search_documents cfg w q k f = ([EvPost Retriever (search_request cfg q k f)], inr v).
Proof.
  intros Hpost Hstatus Hjson Hvalue.
  unfold search_documents, client_post, try_except, bind, emit, logger_error, raise, ret, lift.
  rewrite Hpost. cbn. rewrite Hstatus. cbn.
  unfold response_json. rewrite Hjson. cbn. unfold dict_get. rewrite Hvalue. reflexivity.
Qed.

(** X5: the loop and the join of [generate_answer] succeed exactly when
    the search results can be iterated, every item is a dictionary and every
    [chunk] present is a string; the context and the sources are then the
    joined chunk texts and one source per item. *)
Theorem build_context_succeeds_iff (search_results : json) (context : string)
    (srcs : list dict) :
  build_context search_results = inr (context, srcs)
  <-> exists records,
        py_iter search_results = inr (map JObj records)
        /\ forallb chunk_is_text records = true
        /\ context = String.concat (nl ++ nl) (chunk_texts records)
        /\ srcs = map source_of records.
Proof.
  split.
  - intros E.
    destruct (build_context_inv _ _ _ E) as (items & Eiter & Hall).
    destruct (derived_records _ _ Hall) as (records & -> & ->).
    exists records. split; [exact Eiter|].
    unfold build_context in E. rewrite Eiter in E. cbn [rbind] in E.
    rewrite for_each_records in E. cbn [rbind fst snd app] in E.
    destruct (py_join (nl ++ nl) (chunk_values records)) as [e|ctx] eqn:Ejoin;
      cbn [rbind ok] in E; [discriminate|].
    injection E as <-.
    pose proof (join_from_inv _ _ _ _ Ejoin) as Htext.
    split; [exact Htext|]. split; [|reflexivity].
    unfold py_join in Ejoin. rewrite (chunk_values_texts _ Htext), join_from_texts in Ejoin.
    now injection Ejoin as <-.
  - intros (records & Eiter & Htext & -> & ->).
    unfold build_context. rewrite Eiter. cbn [rbind].
    rewrite for_each_records. cbn [rbind fst snd app].
    rewrite (chunk_values_texts _ Htext). unfold py_join. rewrite join_from_texts.
    reflexivity.
Qed.

(** X6: when the loop or the join raises (a [value] that is [null], an
    item that is not a dictionary, a chunk that is not a string),
    [generate_answer] logs once and raises without calling the generation
    service; the handler answers 500 with the text of that exception. *)
Theorem context_failure_skips_generation (request : QueryRequest) (search_results : json)
    (e : exn) :
  snd (search_documents cfg w (query request) (top_k request) (filter request))
  = inr search_results ->
  build_context search_results = inl e ->
  generate_answer cfg w (query request) search_results
  = ([EvLog ("Error generating answer: " ++ str_exn e)], inl e)
  /\ snd (query_documents cfg w P request)
     = inl (HTTPException 500 ("Error processing query: " ++ str_exn e))
  /\ stages (fst (query_documents cfg w P request)) = [Retriever].
Proof.
  intros Es Eb.
  assert (generate_answer cfg w (query request) search_results
          = ([EvLog ("Error generating answer: " ++ str_exn e)], inl e)) as Erun.
  { unfold generate_answer, try_except, bind, lift, logger_error, emit, raise.
    rewrite Eb. reflexivity. }
  split; [exact Erun|]. split.
  - apply (answerer_failure_converted request search_results e Es).
    rewrite Erun. reflexivity.
  - rewrite query_documents_stages, Es, Erun.
    pose proof (search_documents_stages cfg w (query request) (top_k request) (filter request))
      as (-> & _).
    reflexivity.
Qed.

(** X7: a generation call that raises (timeout, connection failure) makes
    [generate_answer] log once and raise the same exception, after its one
    post; the handler answers 500 with its text. *)
Theorem generation_transport_failure (request : QueryRequest) (search_results : json)
    (context : string) (srcs : list dict) (e : exn) :
  snd (search_documents cfg w (query request) (top_k request) (filter request))
  = inr search_results ->
  build_context search_results = inr (context, srcs) ->
  http_post w (openai_request cfg context (query request)) = Raises e ->
  generate_answer cfg w (query request) search_results
  = ([ EvPost Answerer (openai_request cfg context (query request));
       EvLog ("Error generating answer: " ++ str_exn e) ],
     inl e)
  /\ snd (query_documents cfg w P request)
     = inl (HTTPException 500 ("Error processing query: " ++ str_exn e))
  /\ stages (fst (query_documents cfg w P request)) = [Retriever; Answerer].
Proof.
  intros Es Eb Hpost.
  assert (generate_answer cfg w (query request) search_results
          = ([ EvPost Answerer (openai_request cfg context (query request));
               EvLog ("Error generating answer: " ++ str_exn e) ],
             inl e)) as Erun.
  { unfold generate_answer, client_post, try_except, bind, lift, logger_error, emit, raise, ret.
    rewrite Eb. cbn. rewrite Hpost. reflexivity. }
  split; [exact Erun|]. split.
  - apply (answerer_failure_converted request search_results e Es).
    rewrite Erun. reflexivity.
  - exact (answerer_posted request search_results context srcs Es Eb).
Qed.

(** X8: a generation call answered with a status other than 200 makes the
    handler answer 500 (not the upstream status) with a detail carrying the
    upstream status and body, after one post by each stage. *)
Theorem generation_status_surfaces (request : QueryRequest) (search_results : json)
    (context : string) (srcs : list dict) (r : response) :
  snd (search_documents cfg w (query request) (top_k request) (filter request))
  = inr search_results ->
  build_context search_results = inr (context, srcs) ->
  http_post w (openai_request cfg context (query request)) = Responds r ->
  status_code r <> 200 ->
  snd (query_documents cfg w P request)
  = inl (HTTPException 500
           ("Error processing query: " ++ string_of_Z (status_code r) ++ ": " ++ text r))
  /\ stages (fst (query_documents cfg w P request)) = [Retriever; Answerer].
Proof.
  intros Es Eb Hpost Hstatus. split.
  - exact (answerer_failure_converted request search_results _ Es
             (generate_answer_status cfg w _ _ _ _ r Eb Hpost Hstatus)).
  - exact (answerer_posted request search_results context srcs Es Eb).
Qed.

(** X9: a generation call answered 200 with a body that is not JSON makes
    [generate_answer] raise the decoder's error and the handler answer
    500 with its text. *)
Theorem generation_body_not_json (request : QueryRequest) (search_results : json)
    (context : string) (srcs : list dict) (r : response) (msg : string) :
  snd (search_documents cfg w (query request) (top_k request) (filter request))
  = inr search_results ->
  build_context search_results = inr (context, srcs) ->
  http_post w (openai_request cfg context (query request)) = Responds r ->
  status_code r = 200 ->
  json_payload r = inl msg ->
  snd (generate_answer cfg w (query request) search_results) = inl (JSONDecodeError msg)
  /\ snd (query_documents cfg w P request)
     = inl (HTTPException 500 ("Error processing query: " ++ msg)).
Proof.
  intros Es Eb Hpost Hstatus Hjson.
  assert (snd (generate_answer cfg w (query request) search_results)
          = inl (JSONDecodeError msg)) as Erun.
  { rewrite (generate_answer_200 cfg w _ _ _ _ r Eb Hpost Hstatus).
    unfold response_json. rewrite Hjson. reflexivity. }
  split; [exact Erun|].
  exact (answerer_failure_converted request search_results _ Es Erun).
Qed.

(** X10: when the extracted content is rejected by the [answer: str]
    field of ChatResponse, the handler answers 500 with the validation text,
    although both services answered 200. *)
Theorem rejected_answer_is_an_error (request : QueryRequest) (search_results : json)
    (context : string) (srcs : list dict) (r : response) (payload content : json)
    (msg : string) :
  snd (search_documents cfg w (query request) (top_k request) (filter request))
  = inr search_results ->
  build_context search_results = inr (context, srcs) ->
  http_post w (openai_request cfg context (query request)) = Responds r ->
  status_code r = 200 ->
  json_payload r = inr payload ->
  first_content payload content ->
  validate_str P content = inl msg ->
  snd (generate_answer cfg w (query request) search_results) = inr (content, srcs)
  /\ snd (query_documents cfg w P request)
     = inl (HTTPException 500 ("Error processing query: " ++ msg)).
Proof.
  intros Es Eb Hpost Hstatus Hjson Hcontent Hreject.
  assert (snd (generate_answer cfg w (query request) search_results) = inr (content, srcs))
    as Erun.
  { rewrite (generate_answer_200 cfg w _ _ _ _ r Eb Hpost Hstatus).
    unfold response_json. rewrite Hjson. cbn [rbind ok].
    apply extract_answer_iff in Hcontent. rewrite Hcontent. reflexivity. }
  split; [exact Erun|].
  rewrite query_documents_snd, Es. cbn [rbind]. rewrite Erun. cbn [rbind fst snd].
  unfold new_ChatResponse. rewrite Hreject. reflexivity.
Qed.

Lemma search_documents_ok_trace (q : string) (k : Z) (f : option string) (v : json) :
  snd (search_documents cfg w q k f) = inr v ->
  fst (search_documents cfg w q k f) = [EvPost Retriever (search_request cfg q k f)].
Proof.
  unfold search_documents, client_post, try_except, bind, emit, logger_error, raise, ret, lift.
  destruct (http_post w (search_request cfg q k f)) as [e|r]; cbn; [discriminate|].
  destruct (status_code r =? 200); cbn; [|discriminate].
  destruct (response_json r) as [e|results]; cbn; [discriminate|].
  destruct (py_get results "value" (JArr [])); cbn; [discriminate|reflexivity].
Qed.

Lemma search_documents_failure_trace (q : string) (k : Z) (f : option string) (e : exn) :
  snd (search_documents cfg w q k f) = inl e ->
  exists t,
    fst (search_documents cfg w q k f)
    = (t ++ [EvLog ("Error searching documents: " ++ str_exn e)])%list.
Proof.
  unfold search_documents, client_post, try_except, bind, emit, logger_error, raise, ret, lift.
  destruct (http_post w (search_request cfg q k f)) as [e'|r]; cbn.
  { intros E. injection E as <-. now exists [EvPost Retriever (search_request cfg q k f)]. }
  destruct (status_code r =? 200); cbn.
  - destruct (response_json r) as [e'|results]; cbn.
    { intros E. injection E as <-. now exists [EvPost Retriever (search_request cfg q k f)]. }
    destruct (py_get results "value" (JArr [])) as [e'|v]; cbn; [|discriminate].
    intros E. injection E as <-. now exists [EvPost Retriever (search_request cfg q k f)].
  - intros E. injection E as <-.
    now exists [ EvPost Retriever (search_request cfg q k f);
                 EvLog ("Search API error: " ++ string_of_Z (status_code r) ++ " " ++ text r) ].
Qed.

Lemma generate_answer_ok_trace (q : string) (search_results : json) (a : json)
    (srcs : list dict) :
  snd (generate_answer cfg w q search_results) = inr (a, srcs) ->
  exists context,
    build_context search_results = inr (context, srcs)
    /\ fst (generate_answer cfg w q search_results)
       = [EvPost Answerer (openai_request cfg context q)].
Proof.
  unfold generate_answer, client_post, try_except, bind, emit, logger_error, raise, ret, lift.
  destruct (build_context search_results) as [e|[context srcs']]; cbn; [discriminate|].
  destruct (http_post w (openai_request cfg context q)) as [e|r]; cbn; [discriminate|].
  destruct (status_code r =? 200); cbn; [|discriminate].
  destruct (response_json r) as [e|result]; cbn; [discriminate|].
  destruct (extract_answer result); cbn; [discriminate|].
  intros E. injection E as _ <-. exists context. split; reflexivity.
Qed.

Lemma generate_answer_failure_trace (q : string) (search_results : json) (e : exn) :
  snd (generate_answer cfg w q search_results) = inl e ->
  exists t,
    fst (generate_answer cfg w q search_results)
    = (t ++ [EvLog ("Error generating answer: " ++ str_exn e)])%list.
Proof.
  unfold generate_answer, client_post, try_except, bind, emit, logger_error, raise, ret, lift.
  destruct (build_context search_results) as [e'|[context srcs']]; cbn.
  { intros E. injection E as <-. now exists []. }
  destruct (http_post w (openai_request cfg context q)) as [e'|r]; cbn.
  { intros E. injection E as <-. now exists [EvPost Answerer (openai_request cfg context q)]. }
  destruct (status_code r =? 200); cbn.
  - destruct (response_json r) as [e'|result]; cbn.
    { intros E. injection E as <-. now exists [EvPost Answerer (openai_request cfg context q)]. }
    destruct (extract_answer result) as [e'|answer]; cbn; [|discriminate].
    intros E. injection E as <-. now exists [EvPost Answerer (openai_request cfg context q)].
  - intros E. injection E as <-.
    now exists [ EvPost Answerer (openai_request cfg context q);
                 EvLog ("OpenAI API error: " ++ string_of_Z (status_code r) ++ " " ++ text r) ].
Qed.

Lemma query_documents_fst (request : QueryRequest) :
  fst (query_documents cfg w P request)
  = (fst (search_documents cfg w (query request) (top_k request) (filter request))
     ++ match snd (search_documents cfg w (query request) (top_k request) (filter request)) with
        | inl e => [EvLog ("Error processing query: " ++ str_exn e)]
        | inr search_results =>
            fst (generate_answer cfg w (query request) search_results)
            ++ match rbind (snd (generate_answer cfg w (query request) search_results))
                       (fun pair => new_ChatResponse P (fst pair) (snd pair)) with
               | inl e => [EvLog ("Error processing query: " ++ str_exn e)]
               | inr _ => []
               end
        end)%list.
Proof.
  unfold query_documents, try_except, bind, logger_error, emit, raise, lift.
  destruct (search_documents cfg w (query request) (top_k request) (filter request))
    as [t1 [e|search_results]]; cbn; [reflexivity|].
  destruct (generate_answer cfg w (query request) search_results) as [t2 [e|pair]]; cbn.
  - now rewrite app_assoc.
  - destruct (new_ChatResponse P (fst pair) (snd pair)); cbn;
      now rewrite ?app_nil_r, ?app_assoc.
Qed.

(** X11: a run of the handler that returns a ChatResponse has made
    exactly the two posts, search then generation, and logged nothing; a run
    that fails ends with the log line whose text is the detail of the
    error 500. *)
Theorem handler_trace_shape (request : QueryRequest) :
  match snd (query_documents cfg w P request) with
  | inr c =>
      exists context,
        fst (query_documents cfg w P request)
        = [ EvPost Retriever
              (search_request cfg (query request) (top_k request) (filter request));
            EvPost Answerer (openai_request cfg context (query request)) ]
  | inl e =>
      exists t detail,
        fst (query_documents cfg w P request) = (t ++ [EvLog detail])%list
        /\ e = HTTPException 500 detail
  end.
Proof.
  rewrite query_documents_snd, query_documents_fst.
  destruct (snd (search_documents cfg w (query request) (top_k request) (filter request)))
    as [e|search_results] eqn:Es; cbn [rbind].
  { eexists _, _. split; reflexivity. }
  destruct (snd (generate_answer cfg w (query request) search_results)) as [e|[a srcs]] eqn:Eg;
    cbn [rbind fst snd].
  { eexists _, _. rewrite app_assoc. split; reflexivity. }
  destruct (new_ChatResponse P a srcs) as [e|c].
  { eexists _, _. rewrite app_assoc. split; reflexivity. }
  destruct (generate_answer_ok_trace _ _ _ _ Eg) as (context & _ & ->).
  rewrite (search_documents_ok_trace _ _ _ _ Es).
  exists context. reflexivity.
Qed.

(** X12: a failure of a stage is logged twice with the same text: by the
    stage, then by the handler, as the last two lines of the run. *)
Theorem stage_failure_logged_twice (request : QueryRequest) :
  (forall e,
     snd (search_documents cfg w (query request) (top_k request) (filter request)) = inl e ->
     exists t,
       fst (query_documents cfg w P request)
       = (t ++ [ EvLog ("Error searching documents: " ++ str_exn e);
                 EvLog ("Error processing query: " ++ str_exn e) ])%list)
  /\ (forall search_results e,
        snd (search_documents cfg w (query request) (top_k request) (filter request))
        = inr search_results ->
        snd (generate_answer cfg w (query request) search_results) = inl e ->
        exists t,
          fst (query_documents cfg w P request)
          = (t ++ [ EvLog ("Error generating answer: " ++ str_exn e);
                    EvLog ("Error processing query: " ++ str_exn e) ])%list).
Proof.
  split.
  - intros e Es. rewrite query_documents_fst, Es.
    destruct (search_documents_failure_trace _ _ _ _ Es) as (t & ->).
    exists t. now rewrite <- app_assoc.
  - intros search_results e Es Eg. rewrite query_documents_fst, Es, Eg. cbn [rbind].
    destruct (generate_answer_failure_trace _ _ _ Eg) as (t & ->).
    exists (fst (search_documents cfg w (query request) (top_k request) (filter request))
            ++ t)%list.
    now rewrite <- !app_assoc.
Qed.

(** X13: what the route answers is the ChatResponse the handler
    returned, when it can be encoded; the error 500 of the handler, with its
    detail; the server's plain 500, without detail, when the handler returned
    a ChatResponse that cannot be encoded; or the rejection of the body,
    which causes no call and no log line.  A status received from a service
    is never the status of the answer. *)
Theorem reply_shapes (body : json) :
  (exists c, snd (post_query cfg w P body) = ReplyChat c /\ encodable P c = true)
  \/ (exists detail,
        snd (post_query cfg w P body)
        = ReplyError 500 ("Error processing query: " ++ detail))
  \/ (snd (post_query cfg w P body) = ReplyServerError
      /\ exists request c,
           parse_QueryRequest P body = Some request
           /\ snd (query_documents cfg w P request) = inr c
           /\ encodable P c = false)
  \/ post_query cfg w P body = ([], ReplyInvalid).
Proof.
  unfold post_query.
  destruct (parse_QueryRequest P body) as [request|] eqn:Eparse;
    [|right; right; right; reflexivity].
  pose proof (query_documents_snd cfg w P request) as E.
  destruct (query_documents cfg w P request) as [t r] eqn:Erun. cbn [snd] in E |- *.
  destruct r as [e|c].
  - right; left.
    destruct (rbind (snd (search_documents cfg w (query request) (top_k request)
                            (filter request))) _) as [e'|c']; [|discriminate].
    injection E as ->. eexists. reflexivity.
  - cbn [reply_of]. destruct (encodable P c) eqn:Eenc.
    + left. exists c. split; [reflexivity | exact Eenc].
    + right; right; left. split; [reflexivity|].
      exists request, c. rewrite Erun. repeat split. exact Eenc.
Qed.

(** X14: a body that is not an object, or an object without [query], is
    rejected before the handler runs: no outbound call is made. *)
Theorem body_without_query_rejected (body : json) :
  (forall fields, body = JObj fields -> dict_lookup "query" fields = None) ->
  post_query cfg w P body = ([], ReplyInvalid).
Proof.
  intros H. unfold post_query, parse_QueryRequest.
  destruct body as [ | | | | | |fields]; try reflexivity.
  rewrite (H fields eq_refl). reflexivity.
Qed.

(** X15: in every run, what the Retriever posts goes to the search URL
    with the search key and a timeout of 30, and what the Answerer posts goes
    to the deployment's URL with the OpenAI key, a timeout of 60 and the fixed
    generation parameters. *)
Theorem posts_go_to_their_service (request : QueryRequest) :
  Forall (fun req =>
            req_url req = search_url cfg
            /\ req_api_key req = AZURE_SEARCH_KEY cfg
            /\ req_timeout req = 30)
         (posts Retriever (fst (query_documents cfg w P request)))
  /\ Forall (fun req =>
               req_url req = openai_url cfg
               /\ req_api_key req = AZURE_OPENAI_KEY cfg
               /\ req_timeout req = 60
               /\ dict_lookup "model" (req_json req) = Some (JStr (AZURE_OPENAI_DEPLOYMENT cfg))
               /\ dict_lookup "temperature" (req_json req) = Some (JFloat temperature)
               /\ dict_lookup "max_tokens" (req_json req) = Some (JInt 800))
            (posts Answerer (fst (query_documents cfg w P request))).
Proof.
  rewrite !query_documents_posts.
  pose proof (search_documents_stages cfg w (query request) (top_k request) (filter request))
    as (_ & -> & ->).
  destruct (snd (search_documents cfg w (query request) (top_k request) (filter request)))
    as [e|search_results].
  - split; repeat constructor.
  - pose proof (generate_answer_stages cfg w (query request) search_results) as (_ & -> & ->).
    split; [repeat constructor|].
    destruct (build_context search_results); repeat constructor.
Qed.

End Extras.

(** ** Instances of the further properties *)

Lemma search_transport_failure_witness :
  snd (query_documents cfg0 w_timeout strict (ask "x" 3))
  = inl (HTTPException 500 "Error processing query: timed out")
  /\ stages (fst (query_documents cfg0 w_timeout strict (ask "x" 3))) = [Retriever].
Proof.
  apply (proj2 (search_transport_failure cfg0 w_timeout strict (ask "x" 3)
                  (TransportError "timed out") eq_refl)).
Defined.

Lemma search_body_not_json_witness :
  snd (search_documents cfg0 w_search_not_json "x" 3 None)
  = inl (JSONDecodeError "Expecting value: line 1 column 1 (char 0)")
  /\ snd (query_documents cfg0 w_search_not_json strict (ask "x" 3))
     = inl (HTTPException 500
              "Error processing query: Expecting value: line 1 column 1 (char 0)")
  /\ stages (fst (query_documents cfg0 w_search_not_json strict (ask "x" 3))) = [Retriever].
Proof.
  apply (search_body_not_json cfg0 w_search_not_json strict (ask "x" 3) not_json
           "Expecting value: line 1 column 1 (char 0)"); reflexivity.
Defined.

Lemma search_payload_not_object_witness :
  snd (search_documents cfg0 w_list_payload "x" 3 None)
  = inl (AttributeError "'list' object has no attribute 'get'").
Proof.
  apply (proj1 (search_payload_not_object cfg0 w_list_payload strict (ask "x" 3)
                  (answers (JArr [JObj rec_refunds])) (JArr [JObj rec_refunds])
                  eq_refl eq_refl eq_refl
                  (fun fields (E : JArr [JObj rec_refunds] = JObj fields) =>
                     match E in (_ = y) return (match y with JArr _ => True | _ => False end)
                     with eq_refl => I end))).
Defined.

Lemma search_returns_value_verbatim_witness :
  search_documents cfg0 w_null_value "x" 3 None
  = ([EvPost Retriever (search_request cfg0 "x" 3 None)], inr JNull).
Proof.
  apply (search_returns_value_verbatim cfg0 w_null_value "x" 3 None
           (answers (JObj [ ("value", JNull) ])) [ ("value", JNull) ] JNull); reflexivity.
Defined.

Lemma build_context_succeeds_iff_witness :
  build_context (JArr [JObj rec_refunds; JObj rec_bare])
  = inr ("Refunds are issued within 30 days.", [source_of rec_refunds; source_of rec_bare]).
Proof.
  apply (proj2 (build_context_succeeds_iff (JArr [JObj rec_refunds; JObj rec_bare])
                  "Refunds are issued within 30 days."
                  [source_of rec_refunds; source_of rec_bare])).
  exists [rec_refunds; rec_bare]. repeat split.
Defined.

Lemma context_failure_skips_generation_witness :
  generate_answer cfg0 w_null_value "x" JNull
  = ([EvLog "Error generating answer: 'NoneType' object is not iterable"],
     inl (TypeError "'NoneType' object is not iterable"))
  /\ snd (query_documents cfg0 w_null_value strict (ask "x" 3))
     = inl (HTTPException 500 "Error processing query: 'NoneType' object is not iterable")
  /\ stages (fst (query_documents cfg0 w_null_value strict (ask "x" 3))) = [Retriever].
Proof.
  apply (context_failure_skips_generation cfg0 w_null_value strict (ask "x" 3) JNull
           (TypeError "'NoneType' object is not iterable")); reflexivity.
Defined.

Lemma generation_transport_failure_witness :
  snd (query_documents cfg0 w_openai_timeout strict (ask "x" 3))
  = inl (HTTPException 500 "Error processing query: timed out")
  /\ stages (fst (query_documents cfg0 w_openai_timeout strict (ask "x" 3)))
     = [Retriever; Answerer].
Proof.
  apply (proj2 (generation_transport_failure cfg0 w_openai_timeout strict (ask "x" 3)
                  (JArr [JObj rec_refunds]) "Refunds are issued within 30 days."
                  [source_of rec_refunds] (TransportError "timed out")
                  eq_refl eq_refl eq_refl)).
Defined.

Lemma generation_status_surfaces_witness :
  snd (query_documents cfg0 w_openai_down strict (ask "x" 3))
  = inl (HTTPException 500 "Error processing query: 429: Too Many Requests")
  /\ stages (fst (query_documents cfg0 w_openai_down strict (ask "x" 3)))
     = [Retriever; Answerer].
Proof.
  apply (generation_status_surfaces cfg0 w_openai_down strict (ask "x" 3)
           (JArr [JObj rec_refunds]) "Refunds are issued within 30 days."
           [source_of rec_refunds] (fails 429 "Too Many Requests")).
  - reflexivity.
  - reflexivity.
  - reflexivity.
  - discriminate.
Defined.

Lemma generation_body_not_json_witness :
  snd (generate_answer cfg0 w_openai_not_json "x" (JArr [JObj rec_refunds]))
  = inl (JSONDecodeError "Expecting value: line 1 column 1 (char 0)")
  /\ snd (query_documents cfg0 w_openai_not_json strict (ask "x" 3))
     = inl (HTTPException 500
              "Error processing query: Expecting value: line 1 column 1 (char 0)").
Proof.
  apply (generation_body_not_json cfg0 w_openai_not_json strict (ask "x" 3)
           (JArr [JObj rec_refunds]) "Refunds are issued within 30 days."
           [source_of rec_refunds] not_json "Expecting value: line 1 column 1 (char 0)");
    reflexivity.
Defined.

Lemma rejected_answer_is_an_error_witness :
  snd (generate_answer cfg0 w_null_content "x" (JArr [JObj rec_refunds]))
  = inr (JNull, [source_of rec_refunds])
  /\ snd (query_documents cfg0 w_null_content strict (ask "x" 3))
     = inl (HTTPException 500 "Error processing query: Input should be a valid string").
Proof.
  apply (rejected_answer_is_an_error cfg0 w_null_content strict (ask "x" 3)
           (JArr [JObj rec_refunds]) "Refunds are issued within 30 days."
           [source_of rec_refunds] (answers (completion JNull)) (completion JNull) JNull
           "Input should be a valid string"); try reflexivity.
  eexists _, _, _, _. repeat split.
Defined.

Lemma stage_failure_logged_twice_witness :
  (exists t,
     fst (query_documents cfg0 w_search_down strict (ask "x" 3))
     = (t ++ [ EvLog "Error searching documents: 503: Service Unavailable";
               EvLog "Error processing query: 503: Service Unavailable" ])%list)
  /\ (exists t,
        fst (query_documents cfg0 w_openai_down strict (ask "x" 3))
        = (t ++ [ EvLog "Error generating answer: 429: Too Many Requests";
                  EvLog "Error processing query: 429: Too Many Requests" ])%list).
Proof.
  split.
  - apply (proj1 (stage_failure_logged_twice cfg0 w_search_down strict (ask "x" 3))
             (HTTPException 503 "Service Unavailable")).
    reflexivity.
  - apply (proj2 (stage_failure_logged_twice cfg0 w_openai_down strict (ask "x" 3))
             (JArr [JObj rec_refunds]) (HTTPException 429 "Too Many Requests"));
      reflexivity.
Defined.

Lemma body_without_query_rejected_witness :
  post_query cfg0 w_two strict (JObj [ ("top_k", JInt 3) ]) = ([], ReplyInvalid).
Proof.
  apply (body_without_query_rejected cfg0 w_two strict (JObj [ ("top_k", JInt 3) ])).
  intros fields E. injection E as <-. reflexivity.
Defined.

(** ** Further properties: the prompt and the successful run *)

Lemma prefix_app (a s : string) : String.prefix a (a ++ s) = true.
Proof.
  induction a as [|c a IH]; [now destruct s|].
  cbn. destruct (ascii_dec c c); [exact IH | congruence].
Qed.

Lemma is_substring_unfold (needle hay : string) :
  is_substring needle hay
  = if String.prefix needle hay then true
    else match hay with
         | EmptyString => false
         | String _ hay' => is_substring needle hay'
         end.
Proof. destruct hay; reflexivity. Qed.

Lemma is_substring_here (a s : string) : is_substring a (a ++ s) = true.
Proof. rewrite is_substring_unfold, prefix_app. reflexivity. Qed.

Lemma is_substring_skip (a p s : string) :
  is_substring a s = true -> is_substring a (p ++ s) = true.
Proof.
  intros H. induction p as [|c p IH]; [exact H|].
  cbn [String.append]. rewrite is_substring_unfold.
  destruct (String.prefix a (String c (p ++ s))); [reflexivity | exact IH].
Qed.

Section Success.

Variable cfg : config.
Variable w : world.
Variable P : pydantic.

(** X16: the body of a generation request has exactly two messages, a
    system message that is the same for every request and a user message
    whose text contains the context block and the query as they are. *)
Theorem prompt_embeds_context_and_query (context q : string) :
  exists user,
    dict_lookup "messages" (openai_body cfg context q)
    = Some (JArr [ JObj [ ("role", JStr "system"); ("content", JStr system_content) ];
                   JObj [ ("role", JStr "user"); ("content", JStr user) ] ])
    /\ is_substring context user = true
    /\ is_substring q user = true.
Proof.
  exists (user_content context q). split; [reflexivity|]. split.
  - unfold user_content. do 3 apply is_substring_skip. apply is_substring_here.
  - unfold user_content. do 9 apply is_substring_skip. apply is_substring_here.
Qed.

(** The Answerer returns a value only from a 200 answer with a first
    content. *)
Lemma generate_answer_ok_inv (q : string) (search_results : json) (a : json)
    (srcs : list dict) :
  snd (generate_answer cfg w q search_results) = inr (a, srcs) ->
  exists context r payload,
    build_context search_results = inr (context, srcs)
    /\ http_post w (openai_request cfg context q) = Responds r
    /\ status_code r = 200
    /\ json_payload r = inr payload
    /\ first_content payload a.
Proof.
  unfold generate_answer, client_post, try_except, bind, emit, logger_error, raise, ret, lift.
  destruct (build_context search_results) as [e|[context srcs']]; cbn; [discriminate|].
  destruct (http_post w (openai_request cfg context q)) as [e|r] eqn:Hpost; cbn;
    [discriminate|].
  destruct (status_code r =? 200) eqn:Hstatus; cbn; [|discriminate].
  unfold response_json.
  destruct (json_payload r) as [msg|payload] eqn:Hjson; cbn; [discriminate|].
  destruct (extract_answer payload) as [e|answer] eqn:Hextract; cbn; [discriminate|].
  intros E. injection E as <- <-.
  exists context, r, payload. repeat split; try assumption.
  - now apply Z.eqb_eq.
  - now apply extract_answer_iff.
Qed.

(** X17: when the search is answered 200 with a list of records whose
    chunks are text, and the generation call is answered 200 with a first
    completion whose content is a text, the handler makes exactly the two
    posts, logs nothing, and returns that text with one source per record. *)
Theorem successful_run (request : QueryRequest) (r1 : response) (fields : dict)
    (records : list dict) (r2 : response) (payload : json) (a : string) :
  http_post w (search_request cfg (query request) (top_k request) (filter request))
  = Responds r1 ->
  status_code r1 = 200 ->
  json_payload r1 = inr (JObj fields) ->
  dict_lookup "value" fields = Some (JArr (map JObj records)) ->
  forallb chunk_is_text records = true ->
  http_post w (openai_request cfg (String.concat (nl ++ nl) (chunk_texts records))
                 (query request))
  = Responds r2 ->
  status_code r2 = 200 ->
  json_payload r2 = inr payload ->
  first_content payload (JStr a) ->
  query_documents cfg w P request
  = ([ EvPost Retriever (search_request cfg (query request) (top_k request) (filter request));
       EvPost Answerer
         (openai_request cfg (String.concat (nl ++ nl) (chunk_texts records)) (query request)) ],
     inr {| answer := a; sources := map source_of records |}).
Proof.
  intros Hpost1 Hstatus1 Hjson1 Hvalue Htext Hpost2 Hstatus2 Hjson2 Hcontent.
  assert (search_documents cfg w (query request) (top_k request) (filter request)
          = ([ EvPost Retriever
                 (search_request cfg (query request) (top_k request) (filter request)) ],
             inr (JArr (map JObj records)))) as Es.
  { assert (snd (search_documents cfg w (query request) (top_k request) (filter request))
            = inr (JArr (map JObj records))) as Esnd.
    { rewrite (search_documents_200 cfg w _ _ _ r1 Hpost1 Hstatus1).
      unfold response_json. rewrite Hjson1. cbn [rbind ok py_get].
      unfold dict_get. rewrite Hvalue. reflexivity. }
    rewrite (surjective_pairing
               (search_documents cfg w (query request) (top_k request) (filter request))).
    now rewrite Esnd, (search_documents_ok_trace cfg w _ _ _ _ Esnd). }
  pose proof (build_context_records records Htext) as Eb.
  assert (generate_answer cfg w (query request) (JArr (map JObj records))
          = ([ EvPost Answerer
                 (openai_request cfg (String.concat (nl ++ nl) (chunk_texts records))
                    (query request)) ],
             inr (JStr a, map source_of records))) as Eg.
  { assert (snd (generate_answer cfg w (query request) (JArr (map JObj records)))
            = inr (JStr a, map source_of records)) as Esnd.
    { rewrite (generate_answer_200 cfg w _ _ _ _ r2 Eb Hpost2 Hstatus2).
      unfold response_json. rewrite Hjson2. cbn [rbind ok].
      apply extract_answer_iff in Hcontent. rewrite Hcontent. reflexivity. }
    destruct (generate_answer_ok_trace cfg w _ _ _ _ Esnd) as (context & Eb' & Efst).
    rewrite Eb in Eb'. injection Eb' as <-.
    rewrite (surjective_pairing (generate_answer cfg w (query request) (JArr (map JObj records)))).
    now rewrite Esnd, Efst. }
  unfold query_documents, try_except, bind, lift.
  rewrite Es, Eg. cbn [fst snd app].
  unfold new_ChatResponse. rewrite validate_str_JStr. reflexivity.
Qed.

(** X18: the handler returns a ChatResponse only if both services
    answered 200, the generation payload had a first content, and that
    content was accepted as the answer text. *)
Theorem chat_response_needs_both_200 (request : QueryRequest) (c : ChatResponse) :
  snd (query_documents cfg w P request) = inr c ->
  exists r1 context r2 payload content,
    http_post w (search_request cfg (query request) (top_k request) (filter request))
    = Responds r1
    /\ status_code r1 = 200
    /\ http_post w (openai_request cfg context (query request)) = Responds r2
    /\ status_code r2 = 200
    /\ json_payload r2 = inr payload
    /\ first_content payload content
    /\ validate_str P content = inr (answer c).
Proof.
  rewrite query_documents_snd.
  destruct (snd (search_documents cfg w (query request) (top_k request) (filter request)))
    as [e|search_results] eqn:Es; cbn [rbind]; [discriminate|].
  destruct (snd (generate_answer cfg w (query request) search_results)) as [e|[a srcs]] eqn:Eg;
    cbn [rbind fst snd]; [discriminate|].
  unfold new_ChatResponse.
  destruct (validate_str P a) as [msg|text_] eqn:Ev; [discriminate|].
  intros E. injection E as <-.
  destruct (search_documents_inv _ _ _ _ _ _ Es) as (r1 & Hpost1 & Hstatus1).
  destruct (generate_answer_ok_inv _ _ _ _ Eg)
    as (context & r2 & payload & _ & Hpost2 & Hstatus2 & Hjson2 & Hcontent).
  exists r1, context, r2, payload, a. repeat split; assumption.
Qed.

End Success.

Lemma successful_run_witness :
  query_documents cfg0 w_two strict (ask "What is the refund policy?" 2)
  = ([ EvPost Retriever (search_request cfg0 "What is the refund policy?" 2 None);
       EvPost Answerer
         (openai_request cfg0 "Refunds are issued within 30 days."
            "What is the refund policy?") ],
     inr {| answer := "Refunds take 30 days.";
            sources := [source_of rec_refunds; source_of rec_bare] |}).
Proof.
  apply (successful_run cfg0 w_two strict (ask "What is the refund policy?" 2)
           (answers (hits [rec_refunds; rec_bare]))
           [ ("value", JArr (map JObj [rec_refunds; rec_bare])) ]
           [rec_refunds; rec_bare] good_answer (completion (JStr "Refunds take 30 days."))
           "Refunds take 30 days."); try reflexivity.
  eexists _, _, _, _. repeat split.
Defined.

Lemma chat_response_needs_both_200_witness :
  exists r1 context r2 payload content,
    http_post w_two (search_request cfg0 "x" 3 None) = Responds r1
    /\ status_code r1 = 200
    /\ http_post w_two (openai_request cfg0 context "x") = Responds r2
    /\ status_code r2 = 200
    /\ json_payload r2 = inr payload
    /\ first_content payload content
    /\ validate_str strict content = inr "Refunds take 30 days.".
Proof.
  apply (chat_response_needs_both_200 cfg0 w_two strict (ask "x" 3)
           {| answer := "Refunds take 30 days.";
              sources := [source_of rec_refunds; source_of rec_bare] |}).
  reflexivity.
Defined.
